(** * Steam-trap fleet dashboard: status classification, filtering and KPIs

    A shallow embedding of the telemetry engine of the dashboard:

    - [getTrapStatus], [getFilteredDevices] and [calculateKPIs] of the
      [DeviceDataTable] component (src/components/SettingsModal.tsx);
    - the two device filters of [loadDevices] in the [Dashboard] component,
      and the [isSteamTrap] test of the device card.

    The first part models the pieces of the JavaScript runtime the code
    relies on: strings, IEEE-754 doubles and their conversions to and from
    strings.

    Modelling conventions.
    - A JavaScript number that holds a sensor value is a binary64 float
      ([PrimFloat.float]), with the kernel's IEEE arithmetic.
    - Numbers that only ever count (list lengths, the per-tier counters, the
      energy total that grows by 10 or 15) are [nat] or [Z]; doubles are exact
      on integers below 2^53.
    - Strings are Rocq strings of ASCII characters; code points above 127
      are outside the model ([toLowerCase] leaves them alone, and they are
      neither white space nor digits).
    - [x?.f] on a missing object is [None] (JavaScript [undefined]).
    - Values have their declared TypeScript types, except that a field the
      code reads through [?.] may be missing. *)

From Stdlib Require Import ZArith QArith Qabs Qround List Permutation String Ascii
  Bool Lia.
From Stdlib Require Import Uint63 PrimFloat SpecFloat FloatOps FloatAxioms.
From Stdlib Require Import DecimalString.
Import ListNotations.

Local Open Scope string_scope.
Local Open Scope Z_scope.

(** ** Strings *)

Module JsString.

(** [c.toLowerCase()] on one ASCII character. *)
Definition lowerChar (c : ascii) : ascii :=
  let n := nat_of_ascii c in
  if ((65 <=? n) && (n <=? 90))%nat then ascii_of_nat (n + 32) else c.

(** [s.toLowerCase()]. *)
Fixpoint toLowerCase (s : string) : string :=
  match s with
  | EmptyString => EmptyString
  | String c s' => String (lowerChar c) (toLowerCase s')
  end.

(** [s.startsWith(pat)]. *)
Fixpoint startsWith (s pat : string) : bool :=
  match pat, s with
  | EmptyString, _ => true
  | String _ _, EmptyString => false
  | String p pat', String c s' => Ascii.eqb p c && startsWith s' pat'
  end.

(** [s.includes(pat)]: [pat] occurs in [s] as a contiguous substring. *)
Fixpoint includes (s pat : string) : bool :=
  startsWith s pat ||
  match s with
  | EmptyString => false
  | String _ s' => includes s' pat
  end.

(** [n] copies of the character [c]. *)
Fixpoint repeatChar (c : ascii) (n : nat) : string :=
  match n with
  | O => EmptyString
  | S n' => String c (repeatChar c n')
  end.

(** The decimal digits of a non-negative integer, without sign. *)
Definition digits (n : Z) : string :=
  NilZero.string_of_uint (N.to_uint (Z.to_N n)).

End JsString.

(** ** Numbers *)

Module JsNumber.

Import JsString.

(** The exact value of a finite non-zero double is [m * 2^e]. *)
Definition pow2 (e : Z) : Q := Qpower (2 # 1) e.
Definition pow10 (e : Z) : Q := Qpower (10 # 1) e.

Definition Qltb (a b : Q) : bool :=
  match Qcompare a b with Lt => true | _ => false end.

Definition Qleb (a b : Q) : bool :=
  match Qcompare a b with Gt => false | _ => true end.

(** The [n] with [10^(n-1) <= x < 10^n] for a positive [x], searched
    downwards or upwards from a first guess [n]. *)
Fixpoint decimalExponentFrom (fuel : nat) (n : Z) (x : Q) : Z :=
  match fuel with
  | O => n
  | S fuel' =>
      if Qltb x (pow10 (n - 1)) then decimalExponentFrom fuel' (n - 1) x
      else if Qltb x (pow10 n) then n
      else decimalExponentFrom fuel' (n + 1) x
  end.

(** Doubles lie between 4.9e-324 and 1.8e308, so 640 steps reach the
    exponent from any guess in that range; the guess is [log2 x * 3/10]. *)
Definition decimalExponent (m : positive) (e : Z) : Z :=
  decimalExponentFrom 640 ((Z.log2 (Zpos m) + e) * 3 / 10)
    (inject_Z (Zpos m) * pow2 e)%Q.

(** The decimals that read back as the double [m * 2^e] are those between
    the midpoints to its two neighbours; the midpoints themselves read
    back as it when [m] is even (round to nearest, ties to even). *)
Record RoundingInterval : Type := {
  exact : Q;
  lower : Q;
  upper : Q;
  closed : bool
}.

Definition roundingInterval (m : positive) (e : Z) : RoundingInterval :=
  let x := (inject_Z (Zpos m) * pow2 e)%Q in
  let half := pow2 (e - 1) in
  (* just above a power of two the lower neighbour is half as far *)
  let below :=
    if (Zpos m =? 2 ^ 52) && (-1074 <? e) then pow2 (e - 2) else half in
  {| exact := x;
     lower := (x - below)%Q;
     upper := (x + half)%Q;
     closed := Z.even (Zpos m) |}.

Definition readsBack (i : RoundingInterval) (d : Q) : bool :=
  if closed i then Qleb (lower i) d && Qleb d (upper i)
  else Qltb (lower i) d && Qltb d (upper i).

(** A candidate [s * 10^(n-k)] with [k] digits. *)
Definition candidateValue (k : Z) (c : Z * Z) : Q :=
  (inject_Z (fst c) * pow10 (snd c - k))%Q.

Definition candidates (i : RoundingInterval) (k n : Z) : list (Z * Z) :=
  let f := Qfloor (exact i * pow10 (k - n))%Q in
  filter
    (fun c =>
       (10 ^ (k - 1) <=? fst c) && (fst c <? 10 ^ k)
       && readsBack i (candidateValue k c))
    [(f, n); (f + 1, n)].

Definition distance (i : RoundingInterval) (k : Z) (c : Z * Z) : Q :=
  Qabs (candidateValue k c - exact i)%Q.

(** The candidate closest to the double; of two equally close, the even one. *)
Definition closer (i : RoundingInterval) (k : Z) (a b : Z * Z) : Z * Z :=
  match Qcompare (distance i k a) (distance i k b) with
  | Lt => a
  | Gt => b
  | Eq => if Z.even (fst a) then a else b
  end.

Definition closest (i : RoundingInterval) (k : Z) (cs : list (Z * Z))
  : option (Z * Z) :=
  match cs with
  | [] => None
  | c :: cs' => Some (fold_left (closer i k) cs' c)
  end.

(** Number::toString, step 5: integers [n], [k], [s] with [k >= 1] as small
    as possible, [10^(k-1) <= s < 10^k] and [s * 10^(n-k)] reading back as
    the double.  Seventeen digits always suffice. *)
Fixpoint shortestFrom (fuel : nat) (k : Z) (i : RoundingInterval) (n0 : Z)
  : Z * Z * Z :=
  match fuel with
  | O => (0, k, n0)
  | S fuel' =>
      match closest i k (candidates i k n0 ++ candidates i k (n0 + 1)) with
      | Some (s, n) => (s, k, n)
      | None => shortestFrom fuel' (k + 1) i n0
      end
  end.

Definition shortest (m : positive) (e : Z) : Z * Z * Z :=
  let i := roundingInterval m e in
  shortestFrom 17 1 i (decimalExponent m e).

(** Number::toString, steps 6 to 10: lay out the digits [s] (there are [k]
    of them) with the decimal point after the [n]-th. *)
Definition layout (s k n : Z) : string :=
  let ds := digits s in
  if (k <=? n) && (n <=? 21) then
    ds ++ repeatChar "0" (Z.to_nat (n - k))
  else if (0 <? n) && (n <=? 21) then
    substring 0 (Z.to_nat n) ds ++ "." ++
    substring (Z.to_nat n) (Z.to_nat (k - n)) ds
  else if (-6 <? n) && (n <=? 0) then
    "0." ++ repeatChar "0" (Z.to_nat (- n)) ++ ds
  else
    let ex := (if 0 <=? n - 1 then "+" else "-") ++ digits (Z.abs (n - 1)) in
    if k =? 1 then ds ++ "e" ++ ex
    else
      substring 0 1 ds ++ "." ++ substring 1 (Z.to_nat (k - 1)) ds
      ++ "e" ++ ex.

(** [String(x)] for a number [x] (Number::toString, radix 10). *)
Definition toString (x : float) : string :=
  match Prim2SF x with
  | S754_nan => "NaN"
  | S754_zero _ => "0"
  | S754_infinity false => "Infinity"
  | S754_infinity true => "-Infinity"
  | S754_finite sign m e =>
      let '(s, k, n) := shortest m e in
      (if sign then "-" else "") ++ layout s k n
  end.

(** [x.toFixed(1)]: the integer [n] with [n / 10] closest to [|x|] (the
    larger one of two), written with one digit after the point. *)
Definition toFixed1 (x : float) : string :=
  match Prim2SF x with
  | S754_zero _ => "0.0"
  | S754_finite sign m e =>
      let r := (inject_Z (Zpos m) * pow2 e)%Q in
      if Qleb (pow10 21) r then toString x
      else
        let ds := digits (Qfloor (r * (10 # 1) + (1 # 2))%Q) in
        let ds := if (String.length ds <=? 1)%nat then "0" ++ ds else ds in
        let k := String.length ds in
        (if sign then "-" else "")
        ++ substring 0 (k - 1) ds ++ "." ++ substring (k - 1) 1 ds
  | _ => toString x
  end.

(** A count as a JavaScript number. *)
Definition ofNat (n : nat) : float :=
  PrimFloat.of_uint63 (Uint63.of_Z (Z.of_nat n)).

(** An integer total as a JavaScript number. *)
Definition ofZ (n : Z) : float :=
  if n <? 0 then PrimFloat.opp (PrimFloat.of_uint63 (Uint63.of_Z (- n)))
  else PrimFloat.of_uint63 (Uint63.of_Z n).

(** *** [parseInt(s)] without a radix

    The result is [None] for NaN and the integer read otherwise.  The code
    only compares it with the codes 1, 3, 5, 6 and 9, and the rounding of a
    long digit string to a double never yields one of them. *)

Definition isWhiteSpace (c : ascii) : bool :=
  let n := nat_of_ascii c in
  ((9 <=? n) && (n <=? 13) || (n =? 32))%nat.

Fixpoint trimStart (s : string) : string :=
  match s with
  | String c s' => if isWhiteSpace c then trimStart s' else s
  | EmptyString => EmptyString
  end.

(** The value of a character as a digit: 0-9, then a-z or A-Z for 10-35. *)
Definition digitValue (c : ascii) : option Z :=
  let n := Z.of_nat (nat_of_ascii c) in
  if (48 <=? n) && (n <=? 57) then Some (n - 48)
  else if (97 <=? n) && (n <=? 122) then Some (n - 87)
  else if (65 <=? n) && (n <=? 90) then Some (n - 55)
  else None.

(** Reads the longest prefix of digits of the radix; [acc] is what was read
    so far ([None]: nothing yet). *)
Fixpoint parseDigits (radix : Z) (s : string) (acc : option Z) : option Z :=
  match s with
  | EmptyString => acc
  | String c s' =>
      match digitValue c with
      | Some d =>
          if d <? radix then
            parseDigits radix s'
              (Some (match acc with Some a => a * radix + d | None => d end))
          else acc
      | None => acc
      end
  end.

Definition parseInt (input : string) : option Z :=
  let s := trimStart input in
  let '(sign, s) :=
    match s with
    | String "-" s' => (-1, s')
    | String "+" s' => (1, s')
    | _ => (1, s)
    end in
  let '(radix, s) :=
    if startsWith s "0x" || startsWith s "0X"
    then (16, substring 2 (String.length s - 2) s)
    else (10, s) in
  match parseDigits radix s None with
  | Some mathInt => Some (sign * mathInt)
  | None => None
  end.

End JsNumber.

Import JsString JsNumber.

(** ** Data model (the interfaces of the [DeviceDataTable] component) *)

(** A sensor value: [string | number | null]. *)
Inductive SensorValue : Type :=
  | VNull
  | VNum (x : float)
  | VStr (s : string).

(** An observation time: [string | number]. *)
Inductive TimeStamp : Type :=
  | TimeString (s : string)
  | TimeNumber (x : float).

(** [SensorDataPoint].  The code reads [sensor] through [?.], so the label
    may be missing. *)
Record SensorDataPoint : Type := {
  time : TimeStamp;
  sensor : option string;
  value : SensorValue
}.

(** [DeviceDetail]; [devTypeID] is read through [?.] as well. *)
Record DeviceDetail : Type := {
  devID : string;
  devTypeID : option string
}.

Module Metadata.
(** [DeviceMetadata], the fields the filters read. *)
Record t : Type := {
  devID : string;
  devName : string;
  devTypeID : option string;
  devTypeName : option string
}.
End Metadata.

(** [DeviceRowData]; [lastUpdated] is a [Date], here its epoch time. *)
Record DeviceRowData : Type := {
  device : DeviceDetail;
  metadata : option Metadata.t;
  sensorData : list SensorDataPoint;
  isLoading : bool;
  error : option string;
  lastUpdated : option Z
}.

(** The state [deviceRows : Record<string, DeviceRowData>], as its entries in
    the order [Object.values] enumerates them; the keys of an object are
    distinct. *)
Definition DeviceRows : Type := list (string * DeviceRowData).

(** [deviceRows[id]] *)
Definition lookupRow (deviceRows : DeviceRows) (id : string)
  : option DeviceRowData :=
  option_map snd (find (fun entry => String.eqb (fst entry) id) deviceRows).

(** ** JavaScript tests on values *)

(** [x?.value] *)
Definition optValue (data : option SensorDataPoint) : option SensorValue :=
  option_map value data.

(** Truthiness, as [&&] and [?:] test it: [null], [undefined], [0], [-0],
    [NaN] and the empty string are falsy. *)
Definition truthy (v : option SensorValue) : bool :=
  match v with
  | None | Some VNull => false
  | Some (VNum x) => negb (PrimFloat.is_zero x || PrimFloat.is_nan x)
  | Some (VStr s) => negb (String.eqb s "")
  end.

(** [typeof v === 'number'] *)
Definition isNumber (v : option SensorValue) : bool :=
  match v with
  | Some (VNum _) => true
  | _ => false
  end.

(** [String(v)] for a value that is neither [null] nor [undefined]. *)
Definition String_ (v : SensorValue) : string :=
  match v with
  | VNull => "null"
  | VNum x => toString x
  | VStr s => s
  end.

(** [s?.toLowerCase().includes(pat)], [undefined] read as false. *)
Definition optIncludes (s : option string) (pat : string) : bool :=
  match s with
  | Some s => includes (toLowerCase s) pat
  | None => false
  end.

(** [s === lit] *)
Definition optIs (s : option string) (lit : string) : bool :=
  match s with
  | Some s => String.eqb s lit
  | None => false
  end.

(** [data.sensor?.toLowerCase().includes(pat)] *)
Definition sensorIncludes (data : SensorDataPoint) (pat : string) : bool :=
  optIncludes (sensor data) pat.

(** ** Status Classifier: [getTrapStatus] *)

Module StatusInfo.
Record t : Type := {
  code : Z;
  color : string;
  description : string;
  icon : string
}.
End StatusInfo.

(** What [getTrapStatus] returns. *)
Record TrapStatus : Type := {
  status : string;
  statusCode : Z;
  color : string;
  description : string;
  icon : string
}.

(** The entries of [statusMapping], in the order [Object.entries] gives
    them (the order they are written in). *)
Definition statusMapping : list (string * StatusInfo.t) :=
  [ ("Normal",
     {| StatusInfo.code := 1;
        StatusInfo.color := "text-green-600 bg-green-100";
        StatusInfo.description :=
          "Steam trap is operating normally with proper condensate discharge and no steam loss.";
        StatusInfo.icon := "✓" |});
    ("Heavy Flooding",
     {| StatusInfo.code := 3;
        StatusInfo.color := "text-orange-600 bg-orange-100";
        StatusInfo.description :=
          "Steam trap is experiencing heavy flooding. Condensate is not being discharged properly.";
        StatusInfo.icon := "⚠" |});
    ("Choking",
     {| StatusInfo.code := 6;
        StatusInfo.color := "text-red-600 bg-red-100";
        StatusInfo.description :=
          "Steam trap is choking. Flow is restricted and requires immediate attention.";
        StatusInfo.icon := "⚠" |});
    ("Heavy Leak",
     {| StatusInfo.code := 9;
        StatusInfo.color := "text-red-600 bg-red-100";
        StatusInfo.description :=
          "Steam trap has a heavy leak. Steam is being lost and energy efficiency is compromised.";
        StatusInfo.icon := "⚠" |});
    ("Valve Closed",
     {| StatusInfo.code := 5;
        StatusInfo.color := "text-gray-600 bg-gray-100";
        StatusInfo.description :=
          "Valve is closed. No flow is detected through the steam trap.";
        StatusInfo.icon := "⚠" |}) ].

(** [statusMapping[name]] *)
Definition statusMappingAt (name : string) : option StatusInfo.t :=
  option_map snd
    (find (fun entry => String.eqb (fst entry) name) statusMapping).

(** The object the two loops over [Object.entries(statusMapping)] return. *)
Definition ofEntry (entry : string * StatusInfo.t) : TrapStatus :=
  let '(statusName, statusInfo) := entry in
  {| status := statusName;
     statusCode := StatusInfo.code statusInfo;
     color := StatusInfo.color statusInfo;
     description := StatusInfo.description statusInfo;
     icon := StatusInfo.icon statusInfo |}.

(** [{ status: name, statusCode: n, ...info }]: the spread overwrites nothing
    of [status] and [statusCode], and adds the other three fields (and a
    [code] the declared return type does not show). *)
Definition withInfo (name : string) (n : Z) (info : StatusInfo.t)
  : TrapStatus :=
  {| status := name;
     statusCode := n;
     color := StatusInfo.color info;
     description := StatusInfo.description info;
     icon := StatusInfo.icon info |}.

(** The predicates of the three [find] calls. *)
Definition isStatusSensor (data : SensorDataPoint) : bool :=
  sensorIncludes data "status"
  || sensorIncludes data "condition"
  || sensorIncludes data "trap".

Definition isInletTemp (data : SensorDataPoint) : bool :=
  sensorIncludes data "inlet" && sensorIncludes data "temp".

Definition isOutletTemp (data : SensorDataPoint) : bool :=
  sensorIncludes data "outlet" && sensorIncludes data "temp".

(** [statusInfo.code === statusCode], with [statusCode] from [parseInt]. *)
Definition codeIs (statusCode : option Z) (entry : string * StatusInfo.t)
  : bool :=
  match statusCode with
  | Some n => StatusInfo.code (snd entry) =? n
  | None => false
  end.

(** [value.toLowerCase().includes(statusName.toLowerCase())] *)
Definition nameIn (value : string) (entry : string * StatusInfo.t) : bool :=
  includes (toLowerCase value) (toLowerCase (fst entry)).

(** The first block: the status sensor, by code and then by name.  [None]
    when the block returns nothing and control falls through. *)
Definition statusFromSensor (sensorData : list SensorDataPoint)
  : option TrapStatus :=
  let statusSensor := find isStatusSensor sensorData in
  match optValue statusSensor with
  | None | Some VNull => None
  | Some v =>
      let value := String_ v in
      let statusCode := parseInt value in
      match find (codeIs statusCode) statusMapping with
      | Some entry => Some (ofEntry entry)
      | None => option_map ofEntry (find (nameIn value) statusMapping)
      end
  end.

(** The condition shared by [getTrapStatus] and [calculateKPIs]:
    [inletTemp?.value && outletTemp?.value &&
     typeof inletTemp.value === 'number' &&
     typeof outletTemp.value === 'number'];
    when it holds, the two numbers. *)
Definition temperatures (sensorData : list SensorDataPoint)
  : option (float * float) :=
  let inletTemp := find isInletTemp sensorData in
  let outletTemp := find isOutletTemp sensorData in
  if truthy (optValue inletTemp) && truthy (optValue outletTemp)
     && isNumber (optValue inletTemp) && isNumber (optValue outletTemp)
  then
    match optValue inletTemp, optValue outletTemp with
    | Some (VNum i), Some (VNum o) => Some (i, o)
    | _, _ => None
    end
  else None.

(** The fallback block on the temperature difference. *)
Definition statusFromTemperature (sensorData : list SensorDataPoint)
  : option TrapStatus :=
  match temperatures sensorData with
  | Some (inlet, outlet) =>
      let tempDiff := (inlet - outlet)%float in
      if (100 <? tempDiff)%float then
        Some
          match statusMappingAt "Normal" with
          | Some info => withInfo "Normal" 1 info
          | None =>
              {| status := "Normal";
                 statusCode := 1;
                 color := "text-green-600 bg-green-100";
                 description :=
                   "Good temperature differential indicates proper steam trap operation.";
                 icon := "✓" |}
          end
      else if (tempDiff <? 20)%float then
        Some
          match statusMappingAt "Heavy Flooding" with
          | Some info => withInfo "Heavy Flooding" 3 info
          | None =>
              {| status := "Heavy Flooding";
                 statusCode := 3;
                 color := "text-orange-600 bg-orange-100";
                 description :=
                   "Low temperature differential suggests flooding condition.";
                 icon := "⚠" |}
          end
      else None
  | None => None
  end.

(** The last [return]. *)
Definition defaultStatus : TrapStatus :=
  {| status := "Normal";
     statusCode := 1;
     color := "text-green-600 bg-green-100";
     description := "Steam trap appears to be operating normally.";
     icon := "✓" |}.

Definition getTrapStatus (sensorData : list SensorDataPoint) : TrapStatus :=
  match statusFromSensor sensorData with
  | Some result => result
  | None =>
      match statusFromTemperature sensorData with
      | Some result => result
      | None => defaultStatus
      end
  end.

(** ** Filter Engine and KPI Aggregator *)

(** The [case] labels of the [switch (status.statusCode)] of
    [calculateKPIs]. *)
Inductive SwitchCase : Type :=
  | CaseNormal      (* case 1 *)
  | CaseWarning     (* case 3, case 5 *)
  | CaseCritical    (* case 6, case 9 *)
  | CaseDefault.    (* default *)

Definition switchCase (statusCode : Z) : SwitchCase :=
  match statusCode with
  | 1 => CaseNormal
  | 3 | 5 => CaseWarning
  | 6 | 9 => CaseCritical
  | _ => CaseDefault
  end.

Record StatusCounts : Type := {
  normal : nat;
  warning : nat;
  critical : nat;
  offline : nat
}.

Module Locals.
(** The locals [calculateKPIs] updates in its loop. *)
Record t : Type := {
  statusCounts : StatusCounts;
  totalEnergyLoss : Z;
  avgTempDifferential : float;
  tempDiffCount : nat
}.

Definition initial : t :=
  {| statusCounts := {| normal := 0; warning := 0; critical := 0; offline := 0 |};
     totalEnergyLoss := 0;
     avgTempDifferential := 0;
     tempDiffCount := 0 |}.

Definition setCounts (c : StatusCounts) (l : t) : t :=
  {| statusCounts := c;
     totalEnergyLoss := totalEnergyLoss l;
     avgTempDifferential := avgTempDifferential l;
     tempDiffCount := tempDiffCount l |}.
End Locals.

(** [statusCounts.normal++] and its three siblings. *)
Definition incrNormal (c : StatusCounts) : StatusCounts :=
  {| normal := S (normal c); warning := warning c;
     critical := critical c; offline := offline c |}.

Definition incrWarning (c : StatusCounts) : StatusCounts :=
  {| normal := normal c; warning := S (warning c);
     critical := critical c; offline := offline c |}.

Definition incrCritical (c : StatusCounts) : StatusCounts :=
  {| normal := normal c; warning := warning c;
     critical := S (critical c); offline := offline c |}.

Definition incrOffline (c : StatusCounts) : StatusCounts :=
  {| normal := normal c; warning := warning c;
     critical := critical c; offline := S (offline c) |}.

(** The [switch] statement of the loop. *)
Definition countStatus (statusCode : Z) (l : Locals.t) : Locals.t :=
  let counts := Locals.statusCounts l in
  match switchCase statusCode with
  | CaseNormal => Locals.setCounts (incrNormal counts) l
  | CaseWarning => Locals.setCounts (incrWarning counts) l
  | CaseCritical =>
      {| Locals.statusCounts := incrCritical counts;
         Locals.totalEnergyLoss :=
           Locals.totalEnergyLoss l + (if statusCode =? 9 then 15 else 10);
         Locals.avgTempDifferential := Locals.avgTempDifferential l;
         Locals.tempDiffCount := Locals.tempDiffCount l |}
  | CaseDefault => Locals.setCounts (incrWarning counts) l
  end.

(** The temperature part of the loop. *)
Definition addTemperatures (sensorData : list SensorDataPoint) (l : Locals.t)
  : Locals.t :=
  match temperatures sensorData with
  | Some (inlet, outlet) =>
      {| Locals.statusCounts := Locals.statusCounts l;
         Locals.totalEnergyLoss := Locals.totalEnergyLoss l;
         Locals.avgTempDifferential :=
           (Locals.avgTempDifferential l + (inlet - outlet))%float;
         Locals.tempDiffCount := S (Locals.tempDiffCount l) |}
  | None => l
  end.

(** The body of [Object.values(deviceRows).forEach(row => ...)]. *)
Definition forEachRow (l : Locals.t) (row : DeviceRowData) : Locals.t :=
  if (0 <? List.length (sensorData row))%nat then
    let status := getTrapStatus (sensorData row) in
    addTemperatures (sensorData row) (countStatus (statusCode status) l)
  else Locals.setCounts (incrOffline (Locals.statusCounts l)) l.

(** [!row.error && row.lastUpdated]: an empty message is falsy, a [Date]
    is truthy. *)
Definition isOnline (row : DeviceRowData) : bool :=
  match error row with
  | None | Some "" => true
  | Some _ => false
  end
  && match lastUpdated row with
     | Some _ => true
     | None => false
     end.

Module KPIs.
(** What [calculateKPIs] returns. *)
Record t : Type := {
  totalDevices : nat;
  onlineDevices : nat;
  efficiency : string;
  uptime : string;
  statusCounts : StatusCounts;
  totalEnergyLoss : string;
  avgTempDifferential : string;
  lastUpdated : Z
}.
End KPIs.

Section Table.

(** The props and state of the table component that the two functions
    close over. *)
Variable devices : list DeviceDetail.
Variable deviceRows : DeviceRows.
Variable statusFilter : string.

(** The callback of [devices.filter] in [getFilteredDevices]. *)
Definition matchesFilter (device : DeviceDetail) : bool :=
  match lookupRow deviceRows (devID device) with
  | None => String.eqb statusFilter "offline"
  | Some rowData =>
      if (List.length (sensorData rowData) =? 0)%nat
      then String.eqb statusFilter "offline"
      else
        let status := getTrapStatus (sensorData rowData) in
        if String.eqb statusFilter "normal" then statusCode status =? 1
        else if String.eqb statusFilter "warning" then
          (statusCode status =? 3) || (statusCode status =? 5)
        else if String.eqb statusFilter "critical" then
          (statusCode status =? 6) || (statusCode status =? 9)
        else if String.eqb statusFilter "offline" then false
        else true
  end.

Definition getFilteredDevices : list DeviceDetail :=
  if String.eqb statusFilter "all" then devices
  else filter matchesFilter devices.

(** The locals after the loop. *)
Definition loopTotals : Locals.t :=
  fold_left forEachRow (map snd deviceRows) Locals.initial.

(** [calculateKPIs]; [now] is the [new Date()] it stamps the result with.
    The unused local [devicesWithData] is left out. *)
Definition calculateKPIs (now : Z) : KPIs.t :=
  let totalDevices := List.length devices in
  let onlineDevices := List.length (filter isOnline (map snd deviceRows)) in
  let l := loopTotals in
  let statusCounts := Locals.statusCounts l in
  let avgTempDifferential :=
    if (0 <? Locals.tempDiffCount l)%nat
    then (Locals.avgTempDifferential l / ofNat (Locals.tempDiffCount l))%float
    else 0%float in
  let efficiency :=
    if (0 <? totalDevices)%nat
    then (ofNat (normal statusCounts) / ofNat totalDevices * 100)%float
    else 0%float in
  let uptime :=
    if (0 <? totalDevices)%nat
    then (ofNat onlineDevices / ofNat totalDevices * 100)%float
    else 0%float in
  {| KPIs.totalDevices := totalDevices;
     KPIs.onlineDevices := onlineDevices;
     KPIs.efficiency := toFixed1 efficiency;
     KPIs.uptime := toFixed1 uptime;
     KPIs.statusCounts := statusCounts;
     KPIs.totalEnergyLoss := toFixed1 (ofZ (Locals.totalEnergyLoss l));
     KPIs.avgTempDifferential := toFixed1 avgTempDifferential;
     KPIs.lastUpdated := now |}.

End Table.

(** ** Identifier: the filters of [loadDevices] and the card's test *)

(** The callback of [deviceDetails.filter] ("Filter only Steam Trap
    devices"). *)
Definition coarseFilter (device : DeviceDetail) : bool :=
  optIs (devTypeID device) "STEAM_TRAP3"
  || optIncludes (devTypeID device) "steamtrap"
  || optIncludes (devTypeID device) "steam".

(** The condition on the metadata ("Additional filtering based on
    metadata"). *)
Definition fineFilter (metadata : Metadata.t) : bool :=
  optIncludes (Metadata.devTypeName metadata) "steam trap"
  || optIncludes (Metadata.devTypeName metadata) "steamtrap"
  || optIs (Metadata.devTypeID metadata) "STEAM_TRAP3"
  || optIncludes (Metadata.devTypeID metadata) "steamtrap".

(** [isSteamTrap] of the device card. *)
Definition isSteamTrap (device : DeviceDetail) (metadata : option Metadata.t)
  : bool :=
  let devTypeName :=
    match metadata with
    | Some m => Metadata.devTypeName m
    | None => None
    end in
  optIncludes (devTypeID device) "steamtrap"
  || optIncludes (devTypeID device) "steam"
  || optIncludes devTypeName "steamtrap"
  || optIncludes devTypeName "steam".

(** [map[key] = v] on an object held as its entries. *)
Fixpoint setKey {A : Type} (key : string) (v : A) (entries : list (string * A))
  : list (string * A) :=
  match entries with
  | [] => [(key, v)]
  | (k, old) :: rest =>
      if String.eqb k key then (k, v) :: rest
      else (k, old) :: setKey key v rest
  end.

Section LoadDevices.

(** [dataAccess.getDeviceMetaData]: the outer [None] is a rejected promise,
    the inner one a result without metadata. *)
Variable getDeviceMetaData : string -> option (option Metadata.t).

(** What [loadDevices] hands to [setDevices] and [setDeviceMetadata]. *)
Record Loaded : Type := {
  finalSteamTrapDevices : list DeviceDetail;
  metadataMap : list (string * Metadata.t)
}.

(** One element of [metadataResults]: [null] after a failure. *)
Definition metadataResult (device : DeviceDetail)
  : option (string * option Metadata.t) :=
  match getDeviceMetaData (devID device) with
  | Some metadata => Some (devID device, metadata)
  | None => None
  end.

(** The body of [metadataResults.forEach]. *)
Definition collect (steamTrapDevices : list DeviceDetail) (acc : Loaded)
  (result : option (string * option Metadata.t)) : Loaded :=
  match result with
  | Some (deviceId, Some metadata) =>
      if fineFilter metadata then
        {| metadataMap := setKey deviceId metadata (metadataMap acc);
           finalSteamTrapDevices :=
             match
               find (fun d => String.eqb (devID d) deviceId) steamTrapDevices
             with
             | Some device => finalSteamTrapDevices acc ++ [device]
             | None => finalSteamTrapDevices acc
             end |}
      else acc
  | _ => acc
  end.

(** [loadDevices] on the array [deviceDetails]. *)
Definition loadDevices (deviceDetails : list DeviceDetail) : Loaded :=
  let steamTrapDevices := filter coarseFilter deviceDetails in
  let metadataResults := map metadataResult steamTrapDevices in
  fold_left (collect steamTrapDevices) metadataResults
    {| finalSteamTrapDevices := []; metadataMap := [] |}.

End LoadDevices.

(** ** Table cells and the status badge *)

(** What a cell shows for the reading a [find] located: the shared tail of
    [getSensorValue] and [getPressureValue]. *)
Definition shownValue (found : option SensorDataPoint) : string :=
  match optValue found with
  | None | Some VNull => "N/A"
  | Some (VNum x) => toFixed1 x
  | Some v => String_ v
  end.

Definition getSensorValue (sensorData : list SensorDataPoint)
  (sensorName : string) : string :=
  shownValue
    (find (fun data => sensorIncludes data (toLowerCase sensorName))
       sensorData).

Definition getPressureValue (sensorData : list SensorDataPoint)
  (sensorName : string) : string :=
  shownValue
    (find
       (fun data =>
          sensorIncludes data (toLowerCase sensorName)
          || sensorIncludes data "pressure")
       sensorData).

(** The placeholder of a device that has no row yet. *)
Definition loadingStatus : TrapStatus :=
  {| status := "Loading...";
     statusCode := 0;
     color := "text-gray-500 bg-gray-100";
     description := "";
     icon := "..." |}.

(** [trapStatus] in the row of a device:
    [rowData ? getTrapStatus(rowData.sensorData) : { status: 'Loading...' }]. *)
Definition trapStatusOf (deviceRows : DeviceRows) (device : DeviceDetail)
  : TrapStatus :=
  match lookupRow deviceRows (devID device) with
  | Some rowData => getTrapStatus (sensorData rowData)
  | None => loadingStatus
  end.

(** ** [Set<string>]: the selected devices and the expanded rows *)

Module JsSet.

(** The elements, each once, in insertion order. *)
Definition t : Type := list string.

Definition has (s : t) (x : string) : bool := existsb (String.eqb x) s.

Definition add (x : string) (s : t) : t :=
  if has s x then s else (s ++ [x])%list.

Definition delete (x : string) (s : t) : t :=
  filter (fun y => negb (String.eqb y x)) s.

(** [new Set(iterable)] *)
Definition ofList (l : list string) : t :=
  fold_left (fun s x => add x s) l [].

Definition size (s : t) : nat := List.length s.

End JsSet.

(** [handleDeviceSelection] of the settings modal: the set handed to
    [setSelectedDevices]. *)
Definition handleDeviceSelection (selectedDevices : JsSet.t)
  (deviceId : string) (checked : bool) : JsSet.t :=
  if checked then JsSet.add deviceId selectedDevices
  else JsSet.delete deviceId selectedDevices.

(** [handleSelectAll] *)
Definition handleSelectAll (devices : list DeviceDetail) (checked : bool)
  : JsSet.t :=
  if checked then JsSet.ofList (map devID devices) else [].

(** The [checked] attribute of the "Select All" box:
    [selectedDevices.size === devices.length && devices.length > 0]. *)
Definition selectAllChecked (devices : list DeviceDetail)
  (selectedDevices : JsSet.t) : bool :=
  (JsSet.size selectedDevices =? List.length devices)%nat
  && (0 <? List.length devices)%nat.

(** [toggleRowExpansion] of the table: the set handed to
    [setExpandedRows]. *)
Definition toggleRowExpansion (expandedRows : JsSet.t) (deviceId : string)
  : JsSet.t :=
  if JsSet.has expandedRows deviceId
  then JsSet.delete deviceId expandedRows
  else JsSet.add deviceId expandedRows.

(** [displayDevices] of the dashboard. *)
Definition displayDevices (devices : list DeviceDetail)
  (selectedDevices : JsSet.t) : list DeviceDetail :=
  filter (fun device => JsSet.has selectedDevices (devID device)) devices.

(** ** Objects used as maps *)

(** A key that is an array index (a canonical decimal numeral below
    2^32 - 1), with its value: the keys [Object.values] enumerates first, in
    ascending order. *)
Definition arrayIndex (key : string) : option Z :=
  match parseDigits 10 key None with
  | Some n =>
      if String.eqb (digits n) key && (n <=? 4294967294) then Some n
      else None
  | None => None
  end.

(** Where a new key goes: array indices in ascending order, then the other
    keys in the order they were added. *)
Fixpoint insertKey {A : Type} (key : string) (v : A)
  (entries : list (string * A)) : list (string * A) :=
  match entries with
  | [] => [(key, v)]
  | (k, old) :: rest =>
      match arrayIndex key, arrayIndex k with
      | Some n, Some m =>
          if n <? m then (key, v) :: entries
          else (k, old) :: insertKey key v rest
      | Some _, None => (key, v) :: entries
      | None, _ => (k, old) :: insertKey key v rest
      end
  end.

(** [rows[key] = v] on an object held as its entries in enumeration order:
    an existing key keeps its place. *)
Definition assign {A : Type} (key : string) (v : A)
  (entries : list (string * A)) : list (string * A) :=
  if existsb (fun entry => String.eqb (fst entry) key) entries
  then
    map (fun entry => if String.eqb (fst entry) key then (key, v) else entry)
      entries
  else insertKey key v entries.

(** ** [getDeviceTypeStats] of the dashboard *)







(** ** The rows of the table: initialisation and fetches *)


(** [setDeviceRows(prev => ({ ...prev, [deviceId]: { ...prev[deviceId],
    ... } }))] for a device that has a row.  Without a row the object
    stored is not a [DeviceRowData] (it has no [device], and no [sensorData]
    until the fetch ends): [None], outside the model. *)
Definition updateRow (deviceId : string)
  (change : DeviceRowData -> DeviceRowData) (prev : DeviceRows)
  : option DeviceRows :=
  match lookupRow prev deviceId with
  | Some row => Some (assign deviceId (change row) prev)
  | None => None
  end.

(** How [dataAccess.getDp] ends: with a value, an array or not, or with an
    exception, an [Error] with its message or something else. *)
Inductive FetchOutcome : Type :=
  | Resolved (data : option (list SensorDataPoint))
  | Rejected (message : option string).

(** The three updates of [fetchDeviceData]. *)
Definition fetchStarted (row : DeviceRowData) : DeviceRowData :=
  {| device := device row;
     metadata := metadata row;
     sensorData := sensorData row;
     isLoading := true;
     error := None;
     lastUpdated := lastUpdated row |}.

Definition fetchResolved (data : option (list SensorDataPoint)) (now : Z)
  (row : DeviceRowData) : DeviceRowData :=
  {| device := device row;
     metadata := metadata row;
     sensorData := match data with Some readings => readings | None => [] end;
     isLoading := false;
     error := error row;
     lastUpdated := Some now |}.

Definition fetchRejected (message : option string) (row : DeviceRowData)
  : DeviceRowData :=
  {| device := device row;
     metadata := metadata row;
     sensorData := [];
     isLoading := false;
     error :=
       Some match message with
            | Some m => m
            | None => "Failed to fetch data"
            end;
     lastUpdated := lastUpdated row |}.

(** [fetchDeviceData] with a [dataAccess]: the rows after the fetch ended at
    time [now]. *)
Definition fetchDeviceData (deviceId : string) (outcome : FetchOutcome)
  (now : Z) (prev : DeviceRows) : option DeviceRows :=
  match updateRow deviceId fetchStarted prev with
  | Some started =>
      match outcome with
      | Resolved data => updateRow deviceId (fetchResolved data now) started
      | Rejected message => updateRow deviceId (fetchRejected message) started
      end
  | None => None
  end.

(** ** The specification's wording *)

(** The identification predicate as the specification words it:
    [isMonitoredDevice(typeId, typeName?)]. *)
Definition spec_isMonitoredDevice (typeId typeName : option string) : bool :=
  optIs typeId "STEAM_TRAP3"
  || optIncludes typeId "steamtrap" || optIncludes typeId "steam"
  || optIncludes typeName "steamtrap" || optIncludes typeName "steam".

(** The working set if that one predicate were applied twice: to the raw
    list, and again once the metadata is there. *)
Definition spec_workingSet
  (getDeviceMetaData : string -> option (option Metadata.t))
  (deviceDetails : list DeviceDetail) : list DeviceDetail :=
  filter
    (fun d =>
       spec_isMonitoredDevice (devTypeID d) None
       && match getDeviceMetaData (devID d) with
          | Some (Some m) =>
              spec_isMonitoredDevice (devTypeID d) (Metadata.devTypeName m)
          | _ => false
          end)
    deviceDetails.

(** ** Sample data *)

Definition reading (label : string) (v : SensorValue) : SensorDataPoint :=
  {| time := TimeString "2024-01-01T00:00:00Z";
     sensor := Some label;
     value := v |}.

Definition rowOf (id : string) (readings : list SensorDataPoint)
  : string * DeviceRowData :=
  (id,
   {| device := {| devID := id; devTypeID := Some "STEAM_TRAP3" |};
      metadata := None;
      sensorData := readings;
      isLoading := false;
      error := None;
      lastUpdated := Some 1704067200000 |}).

Definition sampleRows : DeviceRows :=
  [ rowOf "a" [reading "status" (VNum 1)];
    rowOf "b" [reading "status" (VNum 9)];
    rowOf "c"
      [reading "Inlet Temp" (VNum 254.25); reading "Outlet Temp" (VNum 114.5)];
    rowOf "d" [];
    rowOf "e" [reading "trap condition" (VStr "Choking")];
    rowOf "f"
      [reading "Inlet Temp" (VNum 100); reading "Outlet Temp" (VNum 90)] ].

Definition sampleDevices : list DeviceDetail :=
  map (fun entry => device (snd entry)) sampleRows.

(** ** Notions the statements use *)

Inductive Tier : Type := TierNormal | TierWarning | TierCritical | TierOffline.

(** The counter of [statusCounts] a classified device is added to, by the
    [case] its status code selects. *)
Definition tierOfCase (c : SwitchCase) : Tier :=
  match c with
  | CaseNormal => TierNormal
  | CaseWarning => TierWarning
  | CaseCritical => TierCritical
  | CaseDefault => TierWarning
  end.

Definition tier (st : TrapStatus) : Tier :=
  tierOfCase (switchCase (statusCode st)).

(** The table of the specification: name, code, tier. *)
Definition spec_table : list (string * Z * Tier) :=
  [ ("Normal", 1, TierNormal);
    ("Heavy Flooding", 3, TierWarning);
    ("Valve Closed", 5, TierWarning);
    ("Choking", 6, TierCritical);
    ("Heavy Leak", 9, TierCritical) ].

(** A status as a row of that table. *)
Definition tableRow (st : TrapStatus) : string * Z * Tier :=
  (status st, statusCode st, tier st).

(** What a reading carries besides its timestamp. *)
Definition labelled (r : SensorDataPoint) : option string * SensorValue :=
  (sensor r, value r).

(** The devices the four counters have counted. *)
Definition countedDevices (c : StatusCounts) : nat :=
  (normal c + warning c + critical c + offline c)%nat.

(** A row with readings whose status has the given name and code. *)
Definition classifiedAs (name : string) (code : Z) (row : DeviceRowData)
  : bool :=
  let st := getTrapStatus (sensorData row) in
  (0 <? List.length (sensorData row))%nat
  && String.eqb (status st) name && (statusCode st =? code).

(** What a row adds to the energy total. *)
Definition energyOf (row : DeviceRowData) : Z :=
  (if classifiedAs "Choking" 6 row then 10 else 0)
  + (if classifiedAs "Heavy Leak" 9 row then 15 else 0).


(** The mean as [calculateKPIs] computes it from the sum and the count. *)
Definition meanOf (diffs : list float) : float :=
  if (0 <? List.length diffs)%nat
  then (fold_left PrimFloat.add diffs 0 / ofNat (List.length diffs))%float
  else 0%float.

(** The fine filter on a device: its metadata arrived and passes. *)
Definition metadataAccepted
  (getDeviceMetaData : string -> option (option Metadata.t))
  (d : DeviceDetail) : bool :=
  match getDeviceMetaData (devID d) with
  | Some (Some metadata) => fineFilter metadata
  | _ => false
  end.

(** The tier a row is counted in: offline without readings, otherwise the
    tier of its status. *)
Definition bucket (row : DeviceRowData) : Tier :=
  if (0 <? List.length (sensorData row))%nat
  then tier (getTrapStatus (sensorData row))
  else TierOffline.

(** The tier of a device under the filter: a device without a row is
    offline. *)
Definition deviceTier (deviceRows : DeviceRows) (d : DeviceDetail) : Tier :=
  match lookupRow deviceRows (devID d) with
  | Some row => bucket row
  | None => TierOffline
  end.

Definition isTier (t u : Tier) : bool :=
  match t, u with
  | TierNormal, TierNormal
  | TierWarning, TierWarning
  | TierCritical, TierCritical
  | TierOffline, TierOffline => true
  | _, _ => false
  end.

(** The value of [statusFilter] that selects a tier. *)
Definition tierName (t : Tier) : string :=
  match t with
  | TierNormal => "normal"
  | TierWarning => "warning"
  | TierCritical => "critical"
  | TierOffline => "offline"
  end.

Definition tierCount (t : Tier) (c : StatusCounts) : nat :=
  match t with
  | TierNormal => normal c
  | TierWarning => warning c
  | TierCritical => critical c
  | TierOffline => offline c
  end.

(** The rows a tier counts. *)
Definition rowsInTier (t : Tier) (rows : list DeviceRowData)
  : list DeviceRowData :=
  filter (fun row => isTier t (bucket row)) rows.

(** [object[key]] on an object held as its entries: what [lookupRow],
    [metadataOf] and [countAt] compute. *)
Definition valueAt {A : Type} (entries : list (string * A)) (key : string)
  : option A :=
  option_map snd (find (fun entry => String.eqb (fst entry) key) entries).

(** [key in object] *)
Definition hasKey {A : Type} (entries : list (string * A)) (key : string)
  : bool :=
  existsb (fun entry => String.eqb (fst entry) key) entries.





(** The row of a device after a fetch for it ended. *)
Definition rowAfterFetch (outcome : FetchOutcome) (now : Z)
  (row : DeviceRowData) : DeviceRowData :=
  match outcome with
  | Resolved data => fetchResolved data now (fetchStarted row)
  | Rejected message => fetchRejected message (fetchStarted row)
  end.


(** A reading with its label in lower case, and without its timestamp. *)
Definition lowerLabelled (r : SensorDataPoint)
  : option string * SensorValue :=
  (option_map toLowerCase (sensor r), value r).

(** * Properties *)

(** ** The classifier, block by block *)

Lemma statusFromSensor_entry (sensorData : list SensorDataPoint)
  (st : TrapStatus) :
  statusFromSensor sensorData = Some st ->
  exists entry, In entry statusMapping /\ st = ofEntry entry.
Proof.
  unfold statusFromSensor.
  destruct (optValue (find isStatusSensor sensorData)) as [[ | x | s] | ];
    try discriminate.
  - destruct (find (codeIs _) statusMapping) as [entry | ] eqn:Hcode.
    + intros [= <-]. exists entry. split; [ | reflexivity].
      apply (find_some _ _ Hcode).
    + destruct (find (nameIn _) statusMapping) as [entry | ] eqn:Hname;
        [ | discriminate].
      intros [= <-]. exists entry. split; [ | reflexivity].
      apply (find_some _ _ Hname).
  - destruct (find (codeIs _) statusMapping) as [entry | ] eqn:Hcode.
    + intros [= <-]. exists entry. split; [ | reflexivity].
      apply (find_some _ _ Hcode).
    + destruct (find (nameIn _) statusMapping) as [entry | ] eqn:Hname;
        [ | discriminate].
      intros [= <-]. exists entry. split; [ | reflexivity].
      apply (find_some _ _ Hname).
Qed.

Lemma ofEntry_in_table (entry : string * StatusInfo.t) :
  In entry statusMapping -> In (tableRow (ofEntry entry)) spec_table.
Proof.
  intros Hin. unfold statusMapping in Hin. simpl in Hin.
  repeat (destruct Hin as [<- | Hin]; [vm_compute; tauto | ]).
  contradiction.
Qed.

Lemma statusFromTemperature_cases (sensorData : list SensorDataPoint)
  (st : TrapStatus) :
  statusFromTemperature sensorData = Some st ->
  exists inlet outlet,
    temperatures sensorData = Some (inlet, outlet) /\
    ((100 <? inlet - outlet)%float = true /\
     Some st = option_map (withInfo "Normal" 1) (statusMappingAt "Normal")
     \/
     (100 <? inlet - outlet)%float = false /\
     (inlet - outlet <? 20)%float = true /\
     Some st =
       option_map (withInfo "Heavy Flooding" 3)
         (statusMappingAt "Heavy Flooding")).
Proof.
  unfold statusFromTemperature.
  destruct (temperatures sensorData) as [[inlet outlet] | ]; [ | discriminate].
  intros H. exists inlet, outlet. split; [reflexivity | ].
  destruct (100 <? inlet - outlet)%float.
  - left. split; [reflexivity | ]. rewrite <- H. reflexivity.
  - destruct (inlet - outlet <? 20)%float; [ | discriminate].
    right. repeat split. rewrite <- H. reflexivity.
Qed.

Lemma statusFromTemperature_in_table (sensorData : list SensorDataPoint)
  (st : TrapStatus) :
  statusFromTemperature sensorData = Some st ->
  In (tableRow st) spec_table.
Proof.
  intros H.
  destruct (statusFromTemperature_cases _ _ H)
    as (inlet & outlet & _ & [[_ Hst] | (_ & _ & Hst)]);
    vm_compute in Hst; injection Hst as ->; vm_compute; tauto.
Qed.

(** Every result of [getTrapStatus] is a row of the table. *)
Lemma getTrapStatus_in_table (sensorData : list SensorDataPoint) :
  In (tableRow (getTrapStatus sensorData)) spec_table.
Proof.
  unfold getTrapStatus.
  destruct (statusFromSensor sensorData) as [st | ] eqn:Hsensor.
  - destruct (statusFromSensor_entry _ _ Hsensor) as (entry & Hin & ->).
    now apply ofEntry_in_table.
  - destruct (statusFromTemperature sensorData) as [st | ] eqn:Htemp.
    + now apply (statusFromTemperature_in_table sensorData).
    + vm_compute. tauto.
Qed.

(** The five codes, one case each. *)
Lemma statusCode_cases (sensorData : list SensorDataPoint) :
  let st := getTrapStatus sensorData in
  status st = "Normal" /\ statusCode st = 1 \/
  status st = "Heavy Flooding" /\ statusCode st = 3 \/
  status st = "Valve Closed" /\ statusCode st = 5 \/
  status st = "Choking" /\ statusCode st = 6 \/
  status st = "Heavy Leak" /\ statusCode st = 9.
Proof.
  intros st. pose proof (getTrapStatus_in_table sensorData) as Hin.
  fold st in Hin. unfold tableRow, spec_table in Hin. simpl in Hin.
  repeat (destruct Hin as [[= Hs Hc _] | Hin]; [auto 6 | ]).
  contradiction.
Qed.

(** Case analysis on the status of a snapshot: five goals, with the name in
    [Hs] and the code in [Hc]. *)
Ltac by_status_code sensorData Hs Hc :=
  destruct (statusCode_cases sensorData)
    as [[Hs Hc] | [[Hs Hc] | [[Hs Hc] | [[Hs Hc] | [Hs Hc]]]]];
  cbv zeta in Hs, Hc.

(** ** Rule 1: the status sensor's code *)

(** C5. When the first reading whose label contains "status", "condition"
    or "trap" has a value that [parseInt] reads as one of the codes 1, 3, 5,
    6 and 9, [getTrapStatus] returns the entry of [statusMapping] with that
    code, which is the row of the table with that code: Normal/1/normal,
    Heavy Flooding/3/warning, Valve Closed/5/warning, Choking/6/critical,
    Heavy Leak/9/critical.  In particular the single reading "status" = 1
    gives Normal, code 1, tier normal. *)
Theorem known_code_selects_its_table_row
  (sensorData : list SensorDataPoint) (r : SensorDataPoint) (c : Z) :
  find isStatusSensor sensorData = Some r ->
  value r <> VNull ->
  parseInt (String_ (value r)) = Some c ->
  In c [1; 3; 5; 6; 9] ->
  let st := getTrapStatus sensorData in
  statusCode st = c /\
  In (tableRow st) spec_table /\
  (exists info,
      In (status st, info) statusMapping /\
      StatusInfo.code info = c /\
      st = ofEntry (status st, info)) /\
  forall t,
    tableRow
      (getTrapStatus [{| time := t; sensor := Some "status"; value := VNum 1 |}])
    = ("Normal", 1, TierNormal).
Proof.
  intros Hfind Hvalue Hparse Hc st.
  assert (Hst : exists entry,
             In entry statusMapping /\ StatusInfo.code (snd entry) = c /\
             st = ofEntry entry).
  { subst st. unfold getTrapStatus, statusFromSensor.
    rewrite Hfind. unfold optValue. cbn [option_map].
    destruct (value r) as [ | x | s]; [contradiction | | ];
      rewrite Hparse;
      simpl in Hc;
      repeat (destruct Hc as [<- | Hc];
              [eexists; split; [ | split; [ | reflexivity]];
               [vm_compute; tauto | reflexivity] | ]);
      contradiction. }
  destruct Hst as ([name info] & Hin & Hcode & Hst).
  assert (Hname : status st = name) by (rewrite Hst; reflexivity).
  split; [ | split; [ | split]].
  - rewrite Hst. exact Hcode.
  - rewrite Hst. now apply ofEntry_in_table.
  - exists info. rewrite Hname. auto.
  - intros t. reflexivity.
Qed.

Lemma known_code_selects_its_table_row_witness :
  let st := getTrapStatus [reading "Trap Status" (VStr " 9 (leak)")] in
  statusCode st = 9 /\ In (tableRow st) spec_table.
Proof.
  pose (r := reading "Trap Status" (VStr " 9 (leak)")).
  assert (H := known_code_selects_its_table_row [r] r 9).
  cbv zeta in H.
  destruct H as (Hcode & Hrow & _).
  - reflexivity.
  - discriminate.
  - reflexivity.
  - simpl. tauto.
  - exact (conj Hcode Hrow).
Defined.

(** ** Rule 4: the default, and totality *)

Lemma find_all_false {A : Type} (f : A -> bool) (l : list A) :
  (forall x, In x l -> f x = false) -> find f l = None.
Proof.
  induction l as [ | a l IH]; intros H; [reflexivity | ].
  simpl. rewrite (H a (or_introl eq_refl)).
  apply IH. intros x Hx. apply H. now right.
Qed.

Lemma temperatures_none_without_inlet (sensorData : list SensorDataPoint) :
  find isInletTemp sensorData = None -> temperatures sensorData = None.
Proof.
  intros H. unfold temperatures. rewrite H. reflexivity.
Qed.

Lemma temperatures_none_without_outlet (sensorData : list SensorDataPoint) :
  find isOutletTemp sensorData = None -> temperatures sensorData = None.
Proof.
  intros H. unfold temperatures. rewrite H.
  cbn [optValue option_map truthy].
  rewrite andb_false_r. reflexivity.
Qed.

(** C8. [getTrapStatus] returns a status for every reading list, and the
    status is a row of the table.  When neither the status-sensor block nor
    the temperature block returns, the result is the default Normal; this
    is so in particular when no label names a status sensor and the inlet
    or the outlet temperature is missing, and for the empty list. *)
Theorem classification_is_total_with_normal_default
  (sensorData : list SensorDataPoint) :
  (exists st, getTrapStatus sensorData = st /\ In (tableRow st) spec_table) /\
  (statusFromSensor sensorData = None ->
   statusFromTemperature sensorData = None ->
   getTrapStatus sensorData = defaultStatus) /\
  ((forall r, In r sensorData -> isStatusSensor r = false) ->
   (forall r, In r sensorData -> isInletTemp r = false) \/
   (forall r, In r sensorData -> isOutletTemp r = false) ->
   getTrapStatus sensorData = defaultStatus) /\
  getTrapStatus [] = defaultStatus /\
  tableRow defaultStatus = ("Normal", 1, TierNormal).
Proof.
  split; [ | split; [ | split; [ | split]]]; try reflexivity.
  - exists (getTrapStatus sensorData). split; [reflexivity | ].
    apply getTrapStatus_in_table.
  - intros Hsensor Htemp. unfold getTrapStatus.
    now rewrite Hsensor, Htemp.
  - intros Hstatus Htemp. unfold getTrapStatus, statusFromSensor.
    rewrite (find_all_false _ _ Hstatus). cbn [optValue option_map].
    unfold statusFromTemperature.
    destruct Htemp as [Hin | Hout].
    + rewrite temperatures_none_without_inlet; [reflexivity | ].
      now apply find_all_false.
    + rewrite temperatures_none_without_outlet; [reflexivity | ].
      now apply find_all_false.
Qed.

Lemma classification_is_total_with_normal_default_witness :
  getTrapStatus [reading "Pressure" (VNum 3); reading "Inlet Temp" (VNum 7)]
  = defaultStatus.
Proof.
  apply (proj1 (proj2 (proj2
           (classification_is_total_with_normal_default
              [reading "Pressure" (VNum 3); reading "Inlet Temp" (VNum 7)])))).
  - intros r [<- | [<- | []]]; reflexivity.
  - right. intros r [<- | [<- | []]]; reflexivity.
Defined.

(** ** Determinism *)

Lemma optValue_find_by_label (g : option string -> bool)
  (l1 l2 : list SensorDataPoint) :
  map labelled l1 = map labelled l2 ->
  optValue (find (fun r => g (sensor r)) l1)
  = optValue (find (fun r => g (sensor r)) l2).
Proof.
  revert l2. induction l1 as [ | a l1 IH]; intros [ | b l2] H;
    try discriminate; [reflexivity | ].
  cbn [map labelled] in H. injection H as Hsensor Hvalue Hrest.
  simpl. rewrite Hsensor.
  destruct (g (sensor b)).
  - simpl. now rewrite Hvalue.
  - now apply IH.
Qed.

Lemma statusFromSensor_by_label (l1 l2 : list SensorDataPoint) :
  map labelled l1 = map labelled l2 ->
  statusFromSensor l1 = statusFromSensor l2.
Proof.
  intros H. unfold statusFromSensor.
  change isStatusSensor with
    (fun r =>
       (fun label =>
          optIncludes label "status" || optIncludes label "condition"
          || optIncludes label "trap") (sensor r)).
  now rewrite (optValue_find_by_label _ l1 l2 H).
Qed.

Lemma temperatures_by_label (l1 l2 : list SensorDataPoint) :
  map labelled l1 = map labelled l2 -> temperatures l1 = temperatures l2.
Proof.
  intros H. unfold temperatures.
  pose (inlet := fun label =>
          optIncludes label "inlet" && optIncludes label "temp").
  pose (outlet := fun label =>
          optIncludes label "outlet" && optIncludes label "temp").
  change isInletTemp with (fun r => inlet (sensor r)).
  change isOutletTemp with (fun r => outlet (sensor r)).
  rewrite (optValue_find_by_label inlet l1 l2 H).
  rewrite (optValue_find_by_label outlet l1 l2 H).
  reflexivity.
Qed.

(** C9. [getTrapStatus] is a function of the labels and values of the
    readings, in their order: two reading lists that agree on them (they may
    differ in the observation times) get the same result, field by field,
    hence the same name, code and tier.  Two calls on the same list are the
    case [l1 = l2]. *)
Theorem classification_is_deterministic (l1 l2 : list SensorDataPoint) :
  map labelled l1 = map labelled l2 ->
  getTrapStatus l1 = getTrapStatus l2 /\
  tableRow (getTrapStatus l1) = tableRow (getTrapStatus l2).
Proof.
  intros H.
  assert (Heq : getTrapStatus l1 = getTrapStatus l2).
  { unfold getTrapStatus, statusFromTemperature.
    now rewrite (statusFromSensor_by_label l1 l2 H),
      (temperatures_by_label l1 l2 H). }
  split; [exact Heq | now rewrite Heq].
Qed.

Lemma classification_is_deterministic_witness :
  getTrapStatus
    [ {| time := TimeNumber 1704067200; sensor := Some "Inlet Temp";
         value := VNum 100 |};
      {| time := TimeNumber 1704067200; sensor := Some "Outlet Temp";
         value := VNum 90 |} ]
  = getTrapStatus
      [reading "Inlet Temp" (VNum 100); reading "Outlet Temp" (VNum 90)].
Proof.
  apply classification_is_deterministic. reflexivity.
Defined.

(** ** The codes the classifier can return *)

(** C10. The status code of every result of [getTrapStatus] is one of 1, 3,
    5, 6 and 9, with the name the table gives that code; so the [switch] of
    [calculateKPIs] never takes its [default] branch on a status computed
    from a snapshot. *)
Theorem status_code_is_known_and_default_case_unreachable
  (sensorData : list SensorDataPoint) :
  let st := getTrapStatus sensorData in
  In (status st, statusCode st)
    [ ("Normal", 1); ("Heavy Flooding", 3); ("Valve Closed", 5);
      ("Choking", 6); ("Heavy Leak", 9) ] /\
  In (tableRow st) spec_table /\
  switchCase (statusCode st) <> CaseDefault.
Proof.
  intros st.
  split; [ | split; [apply getTrapStatus_in_table | ]];
    by_status_code sensorData Hs Hc;
    fold st in Hs, Hc; rewrite ?Hs, Hc; simpl; try discriminate; tauto.
Qed.

(** ** The loop of the aggregator, one row at a time *)

Lemma addTemperatures_statusCounts (sensorData : list SensorDataPoint)
  (l : Locals.t) :
  Locals.statusCounts (addTemperatures sensorData l) = Locals.statusCounts l.
Proof.
  unfold addTemperatures.
  now destruct (temperatures sensorData) as [[inlet outlet] | ].
Qed.

Lemma addTemperatures_totalEnergyLoss (sensorData : list SensorDataPoint)
  (l : Locals.t) :
  Locals.totalEnergyLoss (addTemperatures sensorData l)
  = Locals.totalEnergyLoss l.
Proof.
  unfold addTemperatures.
  now destruct (temperatures sensorData) as [[inlet outlet] | ].
Qed.

(** A row with readings: what the loop does to the counters, by the code of
    its status. *)
Lemma forEachRow_with_data (l : Locals.t) (row : DeviceRowData) :
  sensorData row <> [] ->
  let c := Locals.statusCounts l in
  let c' := Locals.statusCounts (forEachRow l row) in
  let code := statusCode (getTrapStatus (sensorData row)) in
  code = 1 /\ c' = incrNormal c \/
  (code = 3 \/ code = 5) /\ c' = incrWarning c \/
  (code = 6 \/ code = 9) /\ c' = incrCritical c.
Proof.
  intros Hdata c c' code. subst c'. unfold forEachRow.
  destruct (sensorData row) as [ | r rest] eqn:Hrow; [contradiction | ].
  cbn [List.length Nat.ltb Nat.leb]. rewrite addTemperatures_statusCounts.
  fold code.
  by_status_code (r :: rest) Hs Hc;
    fold code in Hc; rewrite Hc; cbn; auto 6.
Qed.

(** A row without readings is counted offline. *)
Lemma forEachRow_without_data (l : Locals.t) (row : DeviceRowData) :
  sensorData row = [] ->
  forEachRow l row = Locals.setCounts (incrOffline (Locals.statusCounts l)) l.
Proof.
  intros Hrow. unfold forEachRow. now rewrite Hrow.
Qed.

(** ** The filter, one device at a time *)

Lemma getFilteredDevices_In (devices : list DeviceDetail)
  (deviceRows : DeviceRows) (statusFilter : string) (d : DeviceDetail) :
  String.eqb statusFilter "all" = false ->
  In d (getFilteredDevices devices deviceRows statusFilter) <->
  In d devices /\ matchesFilter deviceRows statusFilter d = true.
Proof.
  intros Hall. unfold getFilteredDevices. rewrite Hall. apply filter_In.
Qed.

Lemma matchesFilter_with_data (deviceRows : DeviceRows) (d : DeviceDetail)
  (row : DeviceRowData) :
  lookupRow deviceRows (devID d) = Some row ->
  sensorData row <> [] ->
  let code := statusCode (getTrapStatus (sensorData row)) in
  matchesFilter deviceRows "normal" d = (code =? 1) /\
  matchesFilter deviceRows "warning" d = ((code =? 3) || (code =? 5)) /\
  matchesFilter deviceRows "critical" d = ((code =? 6) || (code =? 9)) /\
  matchesFilter deviceRows "offline" d = false.
Proof.
  intros Hrow Hdata code. unfold matchesFilter. rewrite Hrow.
  destruct (sensorData row) as [ | r rest]; [contradiction | ].
  repeat split.
Qed.

Lemma matchesFilter_without_data (deviceRows : DeviceRows) (d : DeviceDetail)
  (row : DeviceRowData) (statusFilter : string) :
  lookupRow deviceRows (devID d) = Some row ->
  sensorData row = [] ->
  matchesFilter deviceRows statusFilter d = String.eqb statusFilter "offline".
Proof.
  intros Hrow Hdata. unfold matchesFilter. now rewrite Hrow, Hdata.
Qed.

(** C2. The aggregator and the filter bucket a device alike.  For a device
    of the list whose row has readings, the loop of [calculateKPIs] adds the
    row to [statusCounts.normal] (respectively [warning], [critical]) exactly
    when [getFilteredDevices] returns the device under the filter "normal"
    (respectively "warning", "critical"), and neither treats it as offline.
    A device whose row has no readings is added to [statusCounts.offline]
    only, and is returned under "offline" and under none of the other three
    tiers. *)
Theorem aggregator_and_filter_bucket_alike
  (devices : list DeviceDetail) (deviceRows : DeviceRows)
  (d : DeviceDetail) (row : DeviceRowData) (l : Locals.t) :
  In d devices ->
  lookupRow deviceRows (devID d) = Some row ->
  let c := Locals.statusCounts l in
  let c' := Locals.statusCounts (forEachRow l row) in
  let returned tierName :=
    In d (getFilteredDevices devices deviceRows tierName) in
  (sensorData row <> [] ->
   (normal c' = S (normal c) <-> returned "normal") /\
   (warning c' = S (warning c) <-> returned "warning") /\
   (critical c' = S (critical c) <-> returned "critical") /\
   offline c' = offline c /\ ~ returned "offline") /\
  (sensorData row = [] ->
   c' = incrOffline c /\
   returned "offline" /\
   ~ returned "normal" /\ ~ returned "warning" /\ ~ returned "critical").
Proof.
  intros Hd Hrow c c' returned. subst returned. cbv beta.
  rewrite !getFilteredDevices_In by reflexivity.
  split; intros Hdata.
  - destruct (matchesFilter_with_data deviceRows d row Hrow Hdata)
      as (-> & -> & -> & ->).
    subst c'.
    destruct (forEachRow_with_data l row Hdata)
      as [[Hc ->] | [[[Hc | Hc] ->] | [[Hc | Hc] ->]]];
      rewrite Hc; cbn; fold c;
      repeat split; try tauto; try lia; try (intros [_ ?]; discriminate).
  - subst c'. rewrite (forEachRow_without_data l row Hdata).
    rewrite !(matchesFilter_without_data deviceRows d row _ Hrow Hdata).
    cbn. repeat split; try tauto; intros [_ ?]; discriminate.
Qed.

Lemma aggregator_and_filter_bucket_alike_witness :
  let d := {| devID := "b"; devTypeID := Some "STEAM_TRAP3" |} in
  let row := snd (rowOf "b" [reading "status" (VNum 9)]) in
  critical (Locals.statusCounts (forEachRow Locals.initial row)) = 1%nat <->
  In d (getFilteredDevices sampleDevices sampleRows "critical").
Proof.
  intros d row.
  refine
    (proj1 (proj2 (proj2
       (proj1
          (aggregator_and_filter_bucket_alike sampleDevices sampleRows d row
             Locals.initial _ _) _)))).
  - simpl. tauto.
  - reflexivity.
  - discriminate.
Defined.

(** ** The per-tier counts *)

(** Each pass of the loop adds one to exactly one of the four counters. *)
Lemma forEachRow_counts_once (l : Locals.t) (row : DeviceRowData) :
  let c := Locals.statusCounts l in
  let c' := Locals.statusCounts (forEachRow l row) in
  c' = incrNormal c \/ c' = incrWarning c \/
  c' = incrCritical c \/ c' = incrOffline c.
Proof.
  intros c c'. subst c'.
  destruct (sensorData row) as [ | r rest] eqn:Hrow.
  - rewrite (forEachRow_without_data l row Hrow). auto.
  - assert (Hdata : sensorData row <> []) by (rewrite Hrow; discriminate).
    destruct (forEachRow_with_data l row Hdata)
      as [[_ ->] | [[_ ->] | [_ ->]]]; auto.
Qed.

Lemma forEachRow_countedDevices (l : Locals.t) (row : DeviceRowData) :
  countedDevices (Locals.statusCounts (forEachRow l row))
  = S (countedDevices (Locals.statusCounts l)).
Proof.
  destruct (forEachRow_counts_once l row) as [-> | [-> | [-> | ->]]];
    unfold countedDevices; cbn; lia.
Qed.

Lemma loop_countedDevices (rows : list DeviceRowData) (l : Locals.t) :
  countedDevices (Locals.statusCounts (fold_left forEachRow rows l))
  = (countedDevices (Locals.statusCounts l) + List.length rows)%nat.
Proof.
  revert l. induction rows as [ | row rows IH]; intros l; simpl.
  - lia.
  - rewrite IH, forEachRow_countedDevices. lia.
Qed.

(** C3. When the rows of [deviceRows] are those of the current devices, one
    row per device, the four counts [calculateKPIs] returns add up to
    [totalDevices]; and each row is counted in exactly one tier: one pass of
    the loop adds one to one of the four counters and leaves the others
    as they were. *)
Theorem tier_counts_add_up_to_total
  (devices : list DeviceDetail) (deviceRows : DeviceRows) (now : Z) :
  Permutation (map fst deviceRows) (map devID devices) ->
  let kpis := calculateKPIs devices deviceRows now in
  let counts := KPIs.statusCounts kpis in
  (normal counts + warning counts + critical counts + offline counts)%nat
  = KPIs.totalDevices kpis /\
  forall (l : Locals.t) (row : DeviceRowData),
    let c := Locals.statusCounts l in
    let c' := Locals.statusCounts (forEachRow l row) in
    c' = incrNormal c \/ c' = incrWarning c \/
    c' = incrCritical c \/ c' = incrOffline c.
Proof.
  intros Hcover kpis counts. split.
  - subst counts kpis. cbn [calculateKPIs KPIs.statusCounts KPIs.totalDevices].
    fold (countedDevices (Locals.statusCounts (loopTotals deviceRows))).
    unfold loopTotals. rewrite loop_countedDevices.
    apply Permutation_length in Hcover.
    rewrite !length_map in *. cbn. lia.
  - apply forEachRow_counts_once.
Qed.

Lemma tier_counts_add_up_to_total_witness :
  let counts := KPIs.statusCounts (calculateKPIs sampleDevices sampleRows 0) in
  (normal counts + warning counts + critical counts + offline counts)%nat
  = 6%nat.
Proof.
  refine (proj1 (tier_counts_add_up_to_total sampleDevices sampleRows 0 _)).
  reflexivity.
Defined.

(** ** Estimated energy loss *)

Lemma forEachRow_totalEnergyLoss (l : Locals.t) (row : DeviceRowData) :
  Locals.totalEnergyLoss (forEachRow l row)
  = Locals.totalEnergyLoss l + energyOf row.
Proof.
  unfold forEachRow, energyOf, classifiedAs.
  destruct (sensorData row) as [ | r rest] eqn:Hrow; [cbn; lia | ].
  cbn [List.length Nat.ltb Nat.leb andb].
  rewrite addTemperatures_totalEnergyLoss.
  by_status_code (r :: rest) Hs Hc; rewrite Hs, Hc; cbn; lia.
Qed.

Lemma loop_totalEnergyLoss (rows : list DeviceRowData) (l : Locals.t) :
  Locals.totalEnergyLoss (fold_left forEachRow rows l)
  = Locals.totalEnergyLoss l
    + 10 * Z.of_nat (List.length (filter (classifiedAs "Choking" 6) rows))
    + 15 * Z.of_nat (List.length (filter (classifiedAs "Heavy Leak" 9) rows)).
Proof.
  revert l. induction rows as [ | row rows IH]; intros l.
  - cbn. lia.
  - cbn [fold_left filter]. rewrite IH, forEachRow_totalEnergyLoss.
    unfold energyOf.
    destruct (classifiedAs "Choking" 6 row);
      destruct (classifiedAs "Heavy Leak" 9 row);
      cbn [List.length]; lia.
Qed.

(** C7. The energy total of [calculateKPIs] is 10 for each row classified
    Choking (code 6) plus 15 for each row classified Heavy Leak (code 9);
    the result carries it with one decimal.  The single reading "status" = 9
    is classified Heavy Leak, code 9, tier critical, and a row with that
    reading adds exactly 15. *)
Theorem energy_loss_is_10_per_choking_15_per_leak
  (devices : list DeviceDetail) (deviceRows : DeviceRows) (now : Z) :
  let rows := map snd deviceRows in
  let choking := List.length (filter (classifiedAs "Choking" 6) rows) in
  let leaking := List.length (filter (classifiedAs "Heavy Leak" 9) rows) in
  Locals.totalEnergyLoss (loopTotals deviceRows)
  = 10 * Z.of_nat choking + 15 * Z.of_nat leaking /\
  KPIs.totalEnergyLoss (calculateKPIs devices deviceRows now)
  = toFixed1 (ofZ (10 * Z.of_nat choking + 15 * Z.of_nat leaking)) /\
  (forall t,
      tableRow
        (getTrapStatus
           [{| time := t; sensor := Some "status"; value := VNum 9 |}])
      = ("Heavy Leak", 9, TierCritical)) /\
  (forall (l : Locals.t) (row : DeviceRowData) t,
      sensorData row
      = [{| time := t; sensor := Some "status"; value := VNum 9 |}] ->
      Locals.totalEnergyLoss (forEachRow l row)
      = Locals.totalEnergyLoss l + 15).
Proof.
  intros rows choking leaking.
  assert (Htotal : Locals.totalEnergyLoss (loopTotals deviceRows)
                   = 10 * Z.of_nat choking + 15 * Z.of_nat leaking).
  { unfold loopTotals. rewrite loop_totalEnergyLoss.
    subst rows choking leaking.
    cbn [Locals.initial Locals.totalEnergyLoss]. lia. }
  split; [exact Htotal | ].
  split; [cbn [calculateKPIs KPIs.totalEnergyLoss]; now rewrite Htotal | ].
  split; [reflexivity | ].
  intros l row t Hrow. rewrite forEachRow_totalEnergyLoss.
  unfold energyOf, classifiedAs. rewrite Hrow. reflexivity.
Qed.

Lemma energy_loss_is_10_per_choking_15_per_leak_witness :
  Locals.totalEnergyLoss
    (forEachRow Locals.initial (snd (rowOf "b" [reading "status" (VNum 9)])))
  = 15.
Proof.
  refine
    (proj2 (proj2 (proj2
       (energy_loss_is_10_per_choking_15_per_leak [] [] 0)))
       Locals.initial _ (TimeString "2024-01-01T00:00:00Z") _).
  reflexivity.
Defined.

(** ** The temperature differential *)





(** C6. A device whose snapshot is "Inlet Temp" = 50, "Outlet Temp" = 0
    has both readings, both numbers, and a differential of 50; the mean over
    this one-device fleet is 50.  [calculateKPIs] tests the two values for
    truthiness before it tests their type, so the outlet reading 0 counts as
    missing: the device is left out of the sum and of the divisor, and the
    average shown is "0.0".  With an outlet reading of 1 the same device is
    averaged, "49.0". *)
Theorem zero_reading_is_left_out_of_the_average :
  let snapshot outlet :=
    [reading "Inlet Temp" (VNum 50); reading "Outlet Temp" (VNum outlet)] in
  let fleet outlet := [rowOf "trap-1" (snapshot outlet)] in
  let devices := [{| devID := "trap-1"; devTypeID := Some "STEAM_TRAP3" |}] in
  (optValue (find isInletTemp (snapshot 0%float)) = Some (VNum 50) /\
   optValue (find isOutletTemp (snapshot 0%float)) = Some (VNum 0) /\
   toFixed1 (meanOf [(50 - 0)%float]) = "50.0") /\
  temperatures (snapshot 0%float) = None /\
  Locals.tempDiffCount (loopTotals (fleet 0%float)) = 0%nat /\
  KPIs.avgTempDifferential (calculateKPIs devices (fleet 0%float) 0) = "0.0" /\
  KPIs.avgTempDifferential (calculateKPIs devices (fleet 1%float) 0) = "49.0".
Proof.
  vm_compute. repeat split.
Qed.

(** ** Rule 3: the temperature difference *)

(** C1. The snapshot "inlet temp" = 10, "outlet temp" = 0 has no status
    sensor, and an inlet and an outlet temperature that are both numbers,
    10 - 0 = 10 < 20.  [getTrapStatus] tests the two values for truthiness
    before it tests their type, so the reading 0 counts as missing: the
    temperature block is skipped and the result is the default Normal, not
    Heavy Flooding.  The snapshot of the specification, 100 and 90, is
    classified Heavy Flooding. *)
Theorem zero_reading_skips_the_temperature_rule :
  let snapshot :=
    [reading "inlet temp" (VNum 10); reading "outlet temp" (VNum 0)] in
  (find isStatusSensor snapshot = None /\
   optValue (find isInletTemp snapshot) = Some (VNum 10) /\
   optValue (find isOutletTemp snapshot) = Some (VNum 0) /\
   (10 - 0 <? 20)%float = true) /\
  temperatures snapshot = None /\
  getTrapStatus snapshot = defaultStatus /\
  tableRow (getTrapStatus snapshot) = ("Normal", 1, TierNormal) /\
  tableRow
    (getTrapStatus
       [reading "inlet temp" (VNum 100); reading "outlet temp" (VNum 90)])
  = ("Heavy Flooding", 3, TierWarning).
Proof.
  vm_compute. repeat split.
Qed.

(** Above 100 is not below 20, also for doubles. *)
Lemma above_100_not_below_20 (d : float) :
  (100 <? d)%float = true -> (d <? 20)%float = true -> False.
Proof.
  rewrite !ltb_spec. unfold SFltb.
  replace (Prim2SF 100) with (S754_finite false 7036874417766400 (-46))
    by (vm_compute; reflexivity).
  replace (Prim2SF 20) with (S754_finite false 5629499534213120 (-48))
    by (vm_compute; reflexivity).
  destruct (Prim2SF d) as [s | s | | s m e]; unfold SFcompare.
  - destruct s; discriminate.
  - destruct s; discriminate.
  - discriminate.
  - destruct s; try discriminate.
    destruct (Z.compare_spec (-46) e), (Z.compare_spec e (-48));
      try discriminate; lia.
Qed.

(** The rule as the specification words it holds on every snapshot whose
    located inlet and outlet readings are truthy numbers. *)
Lemma temperature_rule_on_truthy_readings
  (sensorData : list SensorDataPoint) (inlet outlet : SensorDataPoint)
  (i o : float) :
  (forall r, In r sensorData -> isStatusSensor r = false) ->
  find isInletTemp sensorData = Some inlet -> value inlet = VNum i ->
  find isOutletTemp sensorData = Some outlet -> value outlet = VNum o ->
  truthy (Some (VNum i)) = true -> truthy (Some (VNum o)) = true ->
  ((100 <? i - o)%float = true ->
   tableRow (getTrapStatus sensorData) = ("Normal", 1, TierNormal)) /\
  ((i - o <? 20)%float = true ->
   tableRow (getTrapStatus sensorData) = ("Heavy Flooding", 3, TierWarning)).
Proof.
  intros Hstatus Hinlet Hi Houtlet Ho Hti Hto.
  assert (Htemps : temperatures sensorData = Some (i, o)).
  { unfold temperatures. rewrite Hinlet, Houtlet.
    cbn [optValue option_map]. rewrite Hi, Ho, Hti, Hto. reflexivity. }
  unfold getTrapStatus, statusFromSensor.
  rewrite (find_all_false _ _ Hstatus). cbn [optValue option_map].
  unfold statusFromTemperature. rewrite Htemps.
  split; intros Hd.
  - rewrite Hd. reflexivity.
  - destruct (100 <? i - o)%float eqn:H100.
    + destruct (above_100_not_below_20 _ H100 Hd).
    + rewrite Hd. reflexivity.
Qed.

(** ** The two filters of [loadDevices] *)

Lemma find_by_unique_devID (l : list DeviceDetail) (d : DeviceDetail) :
  NoDup (map devID l) -> In d l ->
  find (fun d' => String.eqb (devID d') (devID d)) l = Some d.
Proof.
  induction l as [ | a l IH]; intros Hnodup Hin; [contradiction | ].
  cbn [map] in Hnodup. inversion Hnodup as [ | ? ? Hfresh Hrest]; subst.
  cbn [find]. destruct (String.eqb_spec (devID a) (devID d)) as [Heq | Hne].
  - destruct Hin as [-> | Hin]; [reflexivity | ].
    exfalso. apply Hfresh. rewrite Heq. now apply in_map.
  - destruct Hin as [-> | Hin]; [contradiction | ]. now apply IH.
Qed.

(** The devices that pass the coarse filter keep distinct identifiers. *)
Lemma coarse_devices_have_distinct_ids (deviceDetails : list DeviceDetail) :
  NoDup (map devID deviceDetails) ->
  NoDup (map devID (filter coarseFilter deviceDetails)).
Proof.
  induction deviceDetails as [ | d rest IH]; cbn [map filter]; intros Hids.
  - constructor.
  - inversion Hids as [ | ? ? Hfresh Hrest]; subst.
    destruct (coarseFilter d); [ | now apply IH].
    cbn [map]. constructor; [ | now apply IH].
    rewrite in_map_iff. intros (d' & Hid & Hd').
    apply filter_In in Hd'. apply Hfresh.
    rewrite <- Hid. apply in_map. tauto.
Qed.

Lemma collect_all (getDeviceMetaData : string -> option (option Metadata.t))
  (steamTrapDevices pending : list DeviceDetail) (acc : Loaded) :
  (forall d, In d pending ->
     find (fun d' => String.eqb (devID d') (devID d)) steamTrapDevices
     = Some d) ->
  finalSteamTrapDevices
    (fold_left (collect steamTrapDevices)
       (map (metadataResult getDeviceMetaData) pending) acc)
  = (finalSteamTrapDevices acc
     ++ filter (metadataAccepted getDeviceMetaData) pending)%list.
Proof.
  revert acc. induction pending as [ | d pending IH]; intros acc Hfind.
  - cbn. now rewrite app_nil_r.
  - cbn [map fold_left filter].
    rewrite IH by (intros d' Hd'; apply Hfind; now right).
    change (metadataAccepted getDeviceMetaData d)
      with match getDeviceMetaData (devID d) with
           | Some (Some metadata) => fineFilter metadata
           | _ => false
           end.
    unfold collect, metadataResult.
    destruct (getDeviceMetaData (devID d)) as [[metadata | ] | ];
      try reflexivity.
    destruct (fineFilter metadata); [ | reflexivity].
    rewrite (Hfind d (or_introl eq_refl)).
    cbn [finalSteamTrapDevices]. now rewrite <- app_assoc.
Qed.

(** Filtering by the metadata after the coarse filter is one filter by
    both tests. *)
Lemma coarse_then_metadata_filter
  (getDeviceMetaData : string -> option (option Metadata.t))
  (deviceDetails : list DeviceDetail) :
  filter (metadataAccepted getDeviceMetaData)
    (filter coarseFilter deviceDetails)
  = filter
      (fun d => coarseFilter d && metadataAccepted getDeviceMetaData d)
      deviceDetails.
Proof.
  induction deviceDetails as [ | d rest IH]; [reflexivity | ].
  cbn [filter]. destruct (coarseFilter d); cbn [filter andb]; now rewrite IH.
Qed.

Lemma optIs_STEAM_TRAP3_includes_steam (typeId : option string) :
  optIs typeId "STEAM_TRAP3" = true -> optIncludes typeId "steam" = true.
Proof.
  destruct typeId as [s | ]; [ | discriminate].
  cbn [optIs]. intros H. apply String.eqb_eq in H. subst s. reflexivity.
Qed.

(** C4, as the code has it.  The filter on the raw device list keeps a
    device exactly when its type identifier equals "STEAM_TRAP3" or
    contains, in lower case, "steamtrap" or "steam": the predicate of the
    specification with no type name.  The test applied once the metadata
    is there is another, stricter one: the metadata must have arrived, and
    its type name must contain "steam trap" or "steamtrap", or its type
    identifier must equal "STEAM_TRAP3" or contain "steamtrap".  When the
    device identifiers are distinct, the working set is the raw list
    filtered by both, in order: a device that passes the first filter and
    fails the second is dropped. *)
Theorem working_set_passes_coarse_and_metadata_filter
  (getDeviceMetaData : string -> option (option Metadata.t))
  (deviceDetails : list DeviceDetail) :
  NoDup (map devID deviceDetails) ->
  finalSteamTrapDevices (loadDevices getDeviceMetaData deviceDetails)
  = filter
      (fun d => coarseFilter d && metadataAccepted getDeviceMetaData d)
      deviceDetails /\
  (forall d,
      coarseFilter d = spec_isMonitoredDevice (devTypeID d) None /\
      (coarseFilter d = true <->
       devTypeID d = Some "STEAM_TRAP3" \/
       exists typeId,
         devTypeID d = Some typeId /\
         (includes (toLowerCase typeId) "steamtrap" = true \/
          includes (toLowerCase typeId) "steam" = true))) /\
  (forall d,
      metadataAccepted getDeviceMetaData d = true <->
      exists metadata,
        getDeviceMetaData (devID d) = Some (Some metadata) /\
        (optIncludes (Metadata.devTypeName metadata) "steam trap" = true \/
         optIncludes (Metadata.devTypeName metadata) "steamtrap" = true \/
         Metadata.devTypeID metadata = Some "STEAM_TRAP3" \/
         optIncludes (Metadata.devTypeID metadata) "steamtrap" = true)).
Proof.
  intros Hnodup. split; [ | split].
  - unfold loadDevices. rewrite collect_all.
    + cbn [finalSteamTrapDevices app]. apply coarse_then_metadata_filter.
    + intros d Hd. apply find_by_unique_devID; [ | exact Hd].
      now apply coarse_devices_have_distinct_ids.
  - intros d. split.
    + unfold coarseFilter, spec_isMonitoredDevice.
      cbn [optIncludes]. now rewrite !orb_false_r.
    + unfold coarseFilter. rewrite !orb_true_iff.
      destruct (devTypeID d) as [typeId | ]; cbn [optIs optIncludes].
      * rewrite String.eqb_eq. split.
        -- intros [[-> | H] | H]; [now left | right | right];
             exists typeId; auto.
        -- intros [[= ->] | (s & [= <-] & [H | H])]; auto.
      * split; [intros [[H | H] | H]; discriminate | ].
        intros [H | (s & H & _)]; discriminate.
  - intros d. unfold metadataAccepted.
    destruct (getDeviceMetaData (devID d)) as [[metadata | ] | ].
    + unfold fineFilter. rewrite !orb_true_iff. split.
      * intros H. exists metadata. split; [reflexivity | ].
        destruct (Metadata.devTypeID metadata) as [s | ];
          cbn [optIs] in *; [rewrite String.eqb_eq in H | ];
          intuition (subst; auto; discriminate).
      * intros (m & [= <-] & H).
        destruct (Metadata.devTypeID metadata) as [s | ];
          cbn [optIs]; [rewrite String.eqb_eq | ];
          intuition (try congruence; discriminate).
    + split; [discriminate | intros (m & H & _); discriminate].
    + split; [discriminate | intros (m & H & _); discriminate].
Qed.

Lemma working_set_passes_coarse_and_metadata_filter_witness :
  let trap := {| devID := "t1"; devTypeID := Some "STEAM_TRAP3" |} in
  let pump := {| devID := "p1"; devTypeID := Some "PUMP" |} in
  let getDeviceMetaData id :=
    if String.eqb id "t1" then
      Some (Some {| Metadata.devID := "t1";
                    Metadata.devName := "Trap 1";
                    Metadata.devTypeID := Some "STEAM_TRAP3";
                    Metadata.devTypeName := Some "Steam Trap" |})
    else None in
  finalSteamTrapDevices (loadDevices getDeviceMetaData [trap; pump]) = [trap].
Proof.
  intros trap pump getDeviceMetaData.
  refine
    (proj1
       (working_set_passes_coarse_and_metadata_filter getDeviceMetaData
          [trap; pump] _)).
  repeat constructor; simpl; intuition discriminate.
Defined.

(** C4, as the specification words it, fails.  A steam generator passes the
    specification's predicate on its type identifier, and again with its
    type name, so a second pass of that predicate would keep it; but
    [loadDevices] drops it, because the test on the metadata asks for
    "steam trap" or "steamtrap". *)
Lemma fine_filter_is_not_the_coarse_predicate :
  let generator := {| devID := "g1"; devTypeID := Some "STEAM_GEN2" |} in
  let getDeviceMetaData (_ : string) :=
    Some (Some {| Metadata.devID := "g1";
                  Metadata.devName := "Boiler house";
                  Metadata.devTypeID := Some "STEAM_GEN2";
                  Metadata.devTypeName := Some "Steam Generator" |}) in
  spec_isMonitoredDevice (devTypeID generator) None = true /\
  spec_isMonitoredDevice (devTypeID generator) (Some "Steam Generator")
  = true /\
  spec_workingSet getDeviceMetaData [generator] = [generator] /\
  finalSteamTrapDevices (loadDevices getDeviceMetaData [generator]) = [] /\
  finalSteamTrapDevices (loadDevices getDeviceMetaData [generator])
  <> spec_workingSet getDeviceMetaData [generator].
Proof.
  vm_compute. repeat split. discriminate.
Qed.

(** The card's [isSteamTrap] is the predicate of the specification: the
    comparison with "STEAM_TRAP3" adds nothing, since that identifier
    contains "steam" in lower case. *)
Lemma isSteamTrap_is_the_spec_predicate (device : DeviceDetail)
  (metadata : option Metadata.t) :
  isSteamTrap device metadata
  = spec_isMonitoredDevice (devTypeID device)
      match metadata with
      | Some m => Metadata.devTypeName m
      | None => None
      end.
Proof.
  unfold isSteamTrap, spec_isMonitoredDevice.
  destruct (optIs (devTypeID device) "STEAM_TRAP3") eqn:His;
    [ | reflexivity].
  rewrite (optIs_STEAM_TRAP3_includes_steam _ His).
  now rewrite !orb_true_r.
Qed.

(** ** The examples of the specification *)

Example status_1_is_normal :
  tableRow (getTrapStatus [reading "status" (VNum 1)])
  = ("Normal", 1, TierNormal).
Proof. reflexivity. Qed.

Example differential_210_is_normal :
  tableRow
    (getTrapStatus
       [reading "inlet temp" (VNum 260); reading "outlet temp" (VNum 50)])
  = ("Normal", 1, TierNormal).
Proof. reflexivity. Qed.

Example filter_all_returns_the_devices (devices : list DeviceDetail)
  (deviceRows : DeviceRows) :
  getFilteredDevices devices deviceRows "all" = devices.
Proof. reflexivity. Qed.

Example no_devices_no_division (now : Z) :
  let kpis := calculateKPIs [] [] now in
  KPIs.efficiency kpis = "0.0" /\ KPIs.uptime kpis = "0.0".
Proof. split; reflexivity. Qed.

Example sample_fleet :
  let kpis := calculateKPIs sampleDevices sampleRows 0 in
  KPIs.statusCounts kpis
  = {| normal := 2; warning := 1; critical := 2; offline := 1 |} /\
  KPIs.totalEnergyLoss kpis = "25.0" /\
  KPIs.avgTempDifferential kpis = "74.9" /\
  KPIs.efficiency kpis = "33.3" /\
  KPIs.uptime kpis = "100.0".
Proof. vm_compute. repeat split. Qed.

(** * Further properties of the code *)

(** ** More on the classifier *)

Lemma temperature_rule_on_truthy_readings_witness :
  tableRow
    (getTrapStatus
       [reading "Inlet Temp" (VNum 254.25); reading "Outlet Temp" (VNum 250)])
  = ("Heavy Flooding", 3, TierWarning).
Proof.
  refine
    (proj2
       (temperature_rule_on_truthy_readings
          [reading "Inlet Temp" (VNum 254.25);
           reading "Outlet Temp" (VNum 250)]
          (reading "Inlet Temp" (VNum 254.25))
          (reading "Outlet Temp" (VNum 250)) 254.25 250 _ _ _ _ _ _ _) _);
    try reflexivity.
  intros r [<- | [<- | []]]; reflexivity.
Defined.




(** The temperature rule and the default only ever give Normal or Heavy
    Flooding: a status of Valve Closed, Choking or Heavy Leak (so every
    critical one) comes from a status sensor whose value is not null. *)
Theorem fault_states_need_a_status_sensor
  (sensorData : list SensorDataPoint) :
  In (statusCode (getTrapStatus sensorData)) [5; 6; 9] ->
  exists r, find isStatusSensor sensorData = Some r /\ value r <> VNull.
Proof.
  unfold getTrapStatus.
  destruct (statusFromSensor sensorData) as [st | ] eqn:Hsensor.
  - intros _. unfold statusFromSensor in Hsensor.
    destruct (find isStatusSensor sensorData) as [r | ]; [ | discriminate].
    exists r. split; [reflexivity | ].
    cbn [optValue option_map] in Hsensor.
    intros Hnull. rewrite Hnull in Hsensor. discriminate.
  - destruct (statusFromTemperature sensorData) as [st | ] eqn:Htemp.
    + destruct (statusFromTemperature_cases _ _ Htemp)
        as (inlet & outlet & _ & [[_ Hst] | (_ & _ & Hst)]);
        vm_compute in Hst; injection Hst as ->; cbn;
        intros [H | [H | [H | []]]]; discriminate.
    + cbn. intros [H | [H | [H | []]]]; discriminate.
Qed.

Lemma fault_states_need_a_status_sensor_witness :
  exists r,
    find isStatusSensor
      [reading "Inlet Temp" (VNum 100); reading "Condition" (VStr "choking")]
    = Some r /\ value r <> VNull.
Proof.
  apply fault_states_need_a_status_sensor. vm_compute. tauto.
Defined.

Lemma sensorIncludes_by_lowered_label (r1 r2 : SensorDataPoint)
  (pat : string) :
  option_map toLowerCase (sensor r1) = option_map toLowerCase (sensor r2) ->
  sensorIncludes r1 pat = sensorIncludes r2 pat.
Proof.
  unfold sensorIncludes, optIncludes.
  destruct (sensor r1), (sensor r2); cbn [option_map]; intros H;
    try discriminate; [ | reflexivity].
  injection H as ->. reflexivity.
Qed.

Lemma optValue_find_by_lowered_label (p : SensorDataPoint -> bool)
  (l1 l2 : list SensorDataPoint) :
  (forall r1 r2,
      option_map toLowerCase (sensor r1) = option_map toLowerCase (sensor r2)
      -> p r1 = p r2) ->
  map lowerLabelled l1 = map lowerLabelled l2 ->
  optValue (find p l1) = optValue (find p l2).
Proof.
  intros Hp. revert l2.
  induction l1 as [ | a l1 IH]; intros [ | b l2] H; try discriminate;
    [reflexivity | ].
  cbn [map lowerLabelled] in H. injection H as Hsensor Hvalue Hrest.
  cbn [find]. rewrite (Hp a b Hsensor).
  destruct (p b); [cbn; now rewrite Hvalue | now apply IH].
Qed.

(** The case of the labels never matters: two snapshots whose readings
    agree on the values and, up to case, on the labels are classified
    alike. *)
Theorem label_case_does_not_matter (l1 l2 : list SensorDataPoint) :
  map lowerLabelled l1 = map lowerLabelled l2 ->
  getTrapStatus l1 = getTrapStatus l2.
Proof.
  intros H.
  unfold getTrapStatus, statusFromSensor, statusFromTemperature, temperatures.
  rewrite (optValue_find_by_lowered_label isStatusSensor l1 l2).
  - rewrite (optValue_find_by_lowered_label isInletTemp l1 l2).
    + rewrite (optValue_find_by_lowered_label isOutletTemp l1 l2);
        [reflexivity | | exact H].
      intros r1 r2 Hr. unfold isOutletTemp.
      now rewrite !(sensorIncludes_by_lowered_label r1 r2 _ Hr).
    + intros r1 r2 Hr. unfold isInletTemp.
      now rewrite !(sensorIncludes_by_lowered_label r1 r2 _ Hr).
    + exact H.
  - intros r1 r2 Hr. unfold isStatusSensor.
    now rewrite !(sensorIncludes_by_lowered_label r1 r2 _ Hr).
  - exact H.
Qed.

Lemma label_case_does_not_matter_witness :
  getTrapStatus
    [reading "INLET TEMP" (VNum 100); reading "Outlet Temp" (VNum 90)]
  = getTrapStatus
      [reading "inlet temp" (VNum 100); reading "outlet temp" (VNum 90)].
Proof.
  apply label_case_does_not_matter. reflexivity.
Defined.

(** The status names are looked for in the order of [statusMapping], and
    "Normal" comes first: when the status sensor's value is no known code,
    any text that contains "normal", in any case, is classified Normal,
    whatever else it says ("Abnormal", "not normal: heavy leak"). *)
Theorem text_containing_normal_is_classified_normal
  (sensorData : list SensorDataPoint) (r : SensorDataPoint) :
  find isStatusSensor sensorData = Some r ->
  value r <> VNull ->
  (forall c, parseInt (String_ (value r)) = Some c ->
             ~ In c [1; 3; 5; 6; 9]) ->
  includes (toLowerCase (String_ (value r))) "normal" = true ->
  tableRow (getTrapStatus sensorData) = ("Normal", 1, TierNormal).
Proof.
  intros Hfind Hvalue Hcode Hname.
  unfold getTrapStatus, statusFromSensor.
  rewrite Hfind. cbn [optValue option_map].
  assert (Hnone : find (codeIs (parseInt (String_ (value r)))) statusMapping
                  = None).
  { destruct (parseInt (String_ (value r))) as [c | ]; [ | reflexivity].
    specialize (Hcode c eq_refl). cbn [In] in Hcode.
    unfold statusMapping, codeIs. cbn [find snd StatusInfo.code].
    destruct (Z.eqb_spec 1 c); [tauto | ].
    destruct (Z.eqb_spec 3 c); [tauto | ].
    destruct (Z.eqb_spec 6 c); [tauto | ].
    destruct (Z.eqb_spec 9 c); [tauto | ].
    destruct (Z.eqb_spec 5 c); [tauto | ].
    reflexivity. }
  assert (Hfirst : find (nameIn (String_ (value r))) statusMapping
                   = Some ("Normal",
                           {| StatusInfo.code := 1;
                              StatusInfo.color := "text-green-600 bg-green-100";
                              StatusInfo.description :=
                                "Steam trap is operating normally with proper condensate discharge and no steam loss.";
                              StatusInfo.icon := "✓" |})).
  { unfold statusMapping. cbn [find]. unfold nameIn at 1. cbn [fst].
    change (toLowerCase "Normal") with "normal". now rewrite Hname. }
  destruct (value r) as [ | x | s]; [contradiction | | ];
    rewrite Hnone, Hfirst; reflexivity.
Qed.

Lemma text_containing_normal_is_classified_normal_witness :
  tableRow
    (getTrapStatus [reading "Trap Condition" (VStr "Abnormal: heavy leak")])
  = ("Normal", 1, TierNormal).
Proof.
  apply
    (text_containing_normal_is_classified_normal
       [reading "Trap Condition" (VStr "Abnormal: heavy leak")]
       (reading "Trap Condition" (VStr "Abnormal: heavy leak"))).
  - reflexivity.
  - discriminate.
  - intros c Hc. vm_compute in Hc. discriminate.
  - reflexivity.
Defined.

(** ** More on the filter and the aggregator *)

Lemma tier_of_known_code (sensorData : list SensorDataPoint) :
  let st := getTrapStatus sensorData in
  statusCode st = 1 /\ tier st = TierNormal \/
  (statusCode st = 3 \/ statusCode st = 5) /\ tier st = TierWarning \/
  (statusCode st = 6 \/ statusCode st = 9) /\ tier st = TierCritical.
Proof.
  intros st. subst st. unfold tier.
  by_status_code sensorData Hs Hc; rewrite Hc; cbn; auto 6.
Qed.

(** The filter accepts a device under a tier's name exactly when the device
    is in that tier. *)
Lemma matchesFilter_tier (deviceRows : DeviceRows) (d : DeviceDetail)
  (t : Tier) :
  matchesFilter deviceRows (tierName t) d = isTier t (deviceTier deviceRows d).
Proof.
  unfold deviceTier, bucket.
  destruct (lookupRow deviceRows (devID d)) as [row | ] eqn:Hrow.
  - destruct (sensorData row) as [ | r rest] eqn:Hdata.
    + rewrite (matchesFilter_without_data deviceRows d row _ Hrow Hdata).
      now destruct t.
    + assert (Hne : sensorData row <> []) by (rewrite Hdata; discriminate).
      destruct (matchesFilter_with_data deviceRows d row Hrow Hne)
        as (Hn & Hw & Hc & Ho).
      rewrite Hdata in Hn, Hw, Hc. cbn [List.length Nat.ltb Nat.leb].
      destruct (tier_of_known_code (r :: rest))
        as [[Hcode ->] | [[[Hcode | Hcode] ->] | [[Hcode | Hcode] ->]]];
        destruct t; cbn [tierName isTier];
        rewrite ?Hn, ?Hw, ?Hc, ?Ho, ?Hcode; reflexivity.
  - unfold matchesFilter. rewrite Hrow. now destruct t.
Qed.





(** One pass of the loop counts the row in its tier. *)
Lemma forEachRow_tierCount (l : Locals.t) (row : DeviceRowData) (t : Tier) :
  tierCount t (Locals.statusCounts (forEachRow l row))
  = (tierCount t (Locals.statusCounts l)
     + if isTier t (bucket row) then 1 else 0)%nat.
Proof.
  unfold forEachRow, bucket.
  destruct (sensorData row) as [ | r rest].
  - destruct t; cbn; lia.
  - cbn [List.length Nat.ltb Nat.leb]. rewrite addTemperatures_statusCounts.
    unfold tier.
    by_status_code (r :: rest) Hs Hc; rewrite Hc; destruct t; cbn; lia.
Qed.

Lemma loop_tierCount (rows : list DeviceRowData) (l : Locals.t) (t : Tier) :
  tierCount t (Locals.statusCounts (fold_left forEachRow rows l))
  = (tierCount t (Locals.statusCounts l)
     + List.length (rowsInTier t rows))%nat.
Proof.
  revert l. induction rows as [ | row rows IH]; intros l.
  - cbn. lia.
  - cbn [fold_left]. rewrite IH, forEachRow_tierCount.
    unfold rowsInTier. cbn [filter].
    destruct (isTier t (bucket row)); cbn [List.length]; lia.
Qed.

(** How many elements pass a test does not depend on their order. *)
Lemma passing_count_of_permutation {A : Type} (test : A -> bool)
  (l1 l2 : list A) :
  Permutation l1 l2 ->
  List.length (filter test l1) = List.length (filter test l2).
Proof.
  induction 1 as [ | a l1 l2 _ IH | a b l | l1 l2 l3 _ IH12 _ IH23].
  - reflexivity.
  - cbn [filter]. destruct (test a); cbn [List.length]; now rewrite IH.
  - cbn [filter]. destruct (test a), (test b); reflexivity.
  - now rewrite IH12.
Qed.

(** With distinct keys, each entry is what its key looks up. *)
Lemma lookupRow_of_entry (deviceRows : DeviceRows)
  (entry : string * DeviceRowData) :
  NoDup (map fst deviceRows) -> In entry deviceRows ->
  lookupRow deviceRows (fst entry) = Some (snd entry).
Proof.
  unfold lookupRow.
  induction deviceRows as [ | e rest IH]; intros Hkeys Hin; [contradiction | ].
  cbn [map] in Hkeys. inversion Hkeys as [ | ? ? Hfresh Hrest]; subst.
  cbn [find]. destruct (String.eqb_spec (fst e) (fst entry)) as [Heq | Hne].
  - destruct Hin as [-> | Hin]; [reflexivity | ].
    exfalso. apply Hfresh. rewrite Heq. now apply in_map.
  - destruct Hin as [-> | Hin]; [contradiction | ]. now apply IH.
Qed.

(** Fleet-wide agreement of the aggregator and the filter.  When the keys
    of [deviceRows] are the identifiers of the devices, each once, every
    count of [statusCounts] is the number of devices [getFilteredDevices]
    returns under the tier's name: the numbers in the filter menu are the
    lengths of the lists the menu entries show. *)
Theorem counts_are_the_sizes_of_the_filtered_lists
  (devices : list DeviceDetail) (deviceRows : DeviceRows) (now : Z)
  (t : Tier) :
  NoDup (map fst deviceRows) ->
  Permutation (map fst deviceRows) (map devID devices) ->
  tierCount t (KPIs.statusCounts (calculateKPIs devices deviceRows now))
  = List.length (getFilteredDevices devices deviceRows (tierName t)).
Proof.
  intros Hkeys Hcover.
  cbn [calculateKPIs KPIs.statusCounts]. unfold loopTotals.
  rewrite loop_tierCount.
  replace (tierCount t (Locals.statusCounts Locals.initial)) with 0%nat
    by now destruct t.
  cbn [Nat.add]. unfold rowsInTier.
  pose (byId := fun id =>
          isTier t
            match lookupRow deviceRows id with
            | Some row => bucket row
            | None => TierOffline
            end).
  transitivity (List.length (filter byId (map fst deviceRows))).
  - rewrite !filter_map_swap, !length_map. f_equal.
    apply filter_ext_in. intros entry Hentry. subst byId. cbv beta.
    now rewrite (lookupRow_of_entry deviceRows entry Hkeys Hentry).
  - rewrite (passing_count_of_permutation byId _ _ Hcover).
    rewrite filter_map_swap, length_map.
    unfold getFilteredDevices.
    replace (String.eqb (tierName t) "all") with false by now destruct t.
    f_equal. apply filter_ext. intros d. now rewrite matchesFilter_tier.
Qed.

Lemma counts_are_the_sizes_of_the_filtered_lists_witness :
  critical (KPIs.statusCounts (calculateKPIs sampleDevices sampleRows 0))
  = List.length (getFilteredDevices sampleDevices sampleRows "critical").
Proof.
  apply
    (counts_are_the_sizes_of_the_filtered_lists sampleDevices sampleRows 0
       TierCritical).
  - repeat constructor; cbn; intuition discriminate.
  - reflexivity.
Defined.

(** One pass of the loop: the energy total grows by 10 or 15 when the row
    is counted critical, and not at all otherwise. *)
Lemma forEachRow_energy_step (l : Locals.t) (row : DeviceRowData) :
  let c := critical (Locals.statusCounts l) in
  let c' := critical (Locals.statusCounts (forEachRow l row)) in
  let e := Locals.totalEnergyLoss l in
  let e' := Locals.totalEnergyLoss (forEachRow l row) in
  c' = c /\ e' = e \/
  c' = S c /\ (e' = e + 10 \/ e' = e + 15).
Proof.
  cbv zeta. unfold forEachRow.
  destruct (sensorData row) as [ | r rest]; [cbn; auto | ].
  cbn [List.length Nat.ltb Nat.leb].
  rewrite addTemperatures_statusCounts, addTemperatures_totalEnergyLoss.
  by_status_code (r :: rest) Hs Hc; rewrite Hc; cbn; auto.
Qed.

Lemma loop_energy_bounds (rows : list DeviceRowData) (l : Locals.t) :
  let l' := fold_left forEachRow rows l in
  let added :=
    Z.of_nat (critical (Locals.statusCounts l'))
    - Z.of_nat (critical (Locals.statusCounts l)) in
  0 <= added /\
  10 * added <= Locals.totalEnergyLoss l' - Locals.totalEnergyLoss l
  <= 15 * added.
Proof.
  revert l. induction rows as [ | row rows IH]; intros l; cbv zeta.
  - cbn [fold_left]. lia.
  - cbn [fold_left]. specialize (IH (forEachRow l row)). cbv zeta in IH.
    destruct (forEachRow_energy_step l row)
      as [[Hc He] | [Hc [He | He]]]; cbv zeta in Hc, He;
      rewrite Hc, He in IH; lia.
Qed.

(** The estimated energy loss lies between 10 and 15 units per critical
    device: it is zero exactly when no device is critical, and it never
    comes from a normal, warning or offline device. *)
Theorem energy_loss_is_bounded_by_the_critical_count
  (deviceRows : DeviceRows) :
  let totals := loopTotals deviceRows in
  let criticalCount := Z.of_nat (critical (Locals.statusCounts totals)) in
  10 * criticalCount <= Locals.totalEnergyLoss totals <= 15 * criticalCount /\
  (Locals.totalEnergyLoss totals = 0 <-> criticalCount = 0).
Proof.
  cbv zeta. unfold loopTotals.
  pose proof (loop_energy_bounds (map snd deviceRows) Locals.initial) as H.
  cbv zeta in H. cbn [Locals.initial Locals.statusCounts critical
                      Locals.totalEnergyLoss] in H.
  lia.
Qed.

Lemma statusCounts_by_tier (c1 c2 : StatusCounts) :
  (forall t, tierCount t c1 = tierCount t c2) -> c1 = c2.
Proof.
  intros H. destruct c1, c2.
  pose proof (H TierNormal). pose proof (H TierWarning).
  pose proof (H TierCritical). pose proof (H TierOffline).
  cbn in *. congruence.
Qed.

(** The counts, the percentages and the energy loss do not depend on the
    order in which the rows are enumerated: of all the KPIs only the
    average differential, a sum of doubles, can. *)
Theorem kpis_do_not_depend_on_row_order
  (devices : list DeviceDetail) (rows1 rows2 : DeviceRows) (now : Z) :
  Permutation rows1 rows2 ->
  let k1 := calculateKPIs devices rows1 now in
  let k2 := calculateKPIs devices rows2 now in
  KPIs.statusCounts k1 = KPIs.statusCounts k2 /\
  KPIs.totalEnergyLoss k1 = KPIs.totalEnergyLoss k2 /\
  KPIs.onlineDevices k1 = KPIs.onlineDevices k2 /\
  KPIs.efficiency k1 = KPIs.efficiency k2 /\
  KPIs.uptime k1 = KPIs.uptime k2.
Proof.
  intros Hperm k1 k2.
  assert (Hrows : Permutation (map snd rows1) (map snd rows2))
    by now apply Permutation_map.
  assert (Hcounts : Locals.statusCounts (loopTotals rows1)
                    = Locals.statusCounts (loopTotals rows2)).
  { apply statusCounts_by_tier. intros t. unfold loopTotals.
    rewrite !loop_tierCount. f_equal.
    now apply passing_count_of_permutation. }
  assert (Henergy : Locals.totalEnergyLoss (loopTotals rows1)
                    = Locals.totalEnergyLoss (loopTotals rows2)).
  { unfold loopTotals. rewrite !loop_totalEnergyLoss.
    now rewrite
      (passing_count_of_permutation (classifiedAs "Choking" 6) _ _ Hrows),
      (passing_count_of_permutation (classifiedAs "Heavy Leak" 9) _ _ Hrows). }
  assert (Honline : List.length (filter isOnline (map snd rows1))
                    = List.length (filter isOnline (map snd rows2)))
    by now apply passing_count_of_permutation.
  subst k1 k2.
  cbn [calculateKPIs KPIs.statusCounts KPIs.totalEnergyLoss
       KPIs.onlineDevices KPIs.efficiency KPIs.uptime].
  rewrite Hcounts, Henergy, Honline. repeat split.
Qed.

Lemma kpis_do_not_depend_on_row_order_witness :
  KPIs.statusCounts (calculateKPIs sampleDevices (rev sampleRows) 0)
  = KPIs.statusCounts (calculateKPIs sampleDevices sampleRows 0).
Proof.
  refine
    (proj1
       (kpis_do_not_depend_on_row_order sampleDevices (rev sampleRows)
          sampleRows 0 _)).
  apply Permutation_sym, Permutation_rev.
Defined.

(** What the table shows agrees with the filter for the three classified
    tiers: a device listed under "normal", "warning" or "critical" carries a
    badge of that tier.  A device listed under "offline" carries the badge
    "Normal" of the default, or "Loading..." when it has no row. *)
Theorem badge_of_a_listed_device
  (devices : list DeviceDetail) (deviceRows : DeviceRows)
  (d : DeviceDetail) (t : Tier) :
  In d (getFilteredDevices devices deviceRows (tierName t)) ->
  match t with
  | TierOffline =>
      trapStatusOf deviceRows d = defaultStatus \/
      trapStatusOf deviceRows d = loadingStatus
  | _ => tier (trapStatusOf deviceRows d) = t
  end.
Proof.
  intros Hlisted.
  assert (Hmatch : isTier t (deviceTier deviceRows d) = true).
  { unfold getFilteredDevices in Hlisted.
    replace (String.eqb (tierName t) "all") with false in Hlisted
      by now destruct t.
    apply filter_In in Hlisted. now rewrite <- matchesFilter_tier. }
  unfold deviceTier, bucket in Hmatch. unfold trapStatusOf.
  destruct (lookupRow deviceRows (devID d)) as [row | ].
  - destruct (sensorData row) as [ | r rest].
    + destruct t; try discriminate. now left.
    + cbn [List.length Nat.ltb Nat.leb] in Hmatch.
      destruct t, (tier (getTrapStatus (r :: rest))) eqn:Htier;
        try discriminate; try reflexivity.
      destruct (tier_of_known_code (r :: rest))
        as [[_ H] | [[_ H] | [_ H]]]; congruence.
  - destruct t; try discriminate. now right.
Qed.

Lemma badge_of_a_listed_device_witness :
  trapStatusOf sampleRows {| devID := "d"; devTypeID := Some "STEAM_TRAP3" |}
  = defaultStatus \/
  trapStatusOf sampleRows {| devID := "d"; devTypeID := Some "STEAM_TRAP3" |}
  = loadingStatus.
Proof.
  apply
    (badge_of_a_listed_device sampleDevices sampleRows
       {| devID := "d"; devTypeID := Some "STEAM_TRAP3" |} TierOffline).
  vm_compute. tauto.
Defined.

(** ** The cells of the table *)

Lemma find_by_tests_that_agree {A : Type} (p q : A -> bool) (l : list A) :
  (forall x, In x l -> p x = q x) -> find p l = find q l.
Proof.
  induction l as [ | a l IH]; intros Hpq; [reflexivity | ].
  cbn [find]. rewrite <- (Hpq a (or_introl eq_refl)).
  destruct (p a); [reflexivity | ].
  apply IH. intros x Hx. apply Hpq. now right.
Qed.

(** Without a pressure sensor the pressure cells fall back on the reading
    the name selects: they show what the temperature cells show. *)
Theorem pressure_cell_without_pressure_sensor
  (sensorData : list SensorDataPoint) (sensorName : string) :
  (forall r, In r sensorData -> sensorIncludes r "pressure" = false) ->
  getPressureValue sensorData sensorName
  = getSensorValue sensorData sensorName.
Proof.
  intros Hnone. unfold getPressureValue, getSensorValue. f_equal.
  apply find_by_tests_that_agree. intros r Hr.
  rewrite (Hnone r Hr). apply orb_false_r.
Qed.

Lemma pressure_cell_without_pressure_sensor_witness :
  getPressureValue
    [reading "Inlet Temp" (VNum 254.25); reading "Outlet Temp" (VNum 0)]
    "outlet"
  = getSensorValue
      [reading "Inlet Temp" (VNum 254.25); reading "Outlet Temp" (VNum 0)]
      "outlet".
Proof.
  apply pressure_cell_without_pressure_sensor.
  intros r [<- | [<- | []]]; reflexivity.
Defined.

(** A pressure reading that comes before every reading the names select
    fills both pressure cells: the inlet and the outlet cell then show the
    same value. *)
Theorem pressure_cells_share_the_first_pressure_reading
  (before after : list SensorDataPoint) (p : SensorDataPoint)
  (name1 name2 : string) :
  sensorIncludes p "pressure" = true ->
  (forall r, In r before ->
     sensorIncludes r "pressure" = false /\
     sensorIncludes r (toLowerCase name1) = false /\
     sensorIncludes r (toLowerCase name2) = false) ->
  getPressureValue (before ++ p :: after) name1 = shownValue (Some p) /\
  getPressureValue (before ++ p :: after) name2 = shownValue (Some p).
Proof.
  intros Hp Hbefore.
  assert (Hfind : forall name,
             (forall r, In r before ->
                sensorIncludes r (toLowerCase name) = false /\
                sensorIncludes r "pressure" = false) ->
             getPressureValue (before ++ p :: after) name
             = shownValue (Some p)).
  { intros name Hname. unfold getPressureValue. f_equal.
    induction before as [ | b before IH]; cbn [app find].
    - now rewrite Hp, orb_true_r.
    - destruct (Hname b (or_introl eq_refl)) as [-> ->]. cbn [orb].
      apply IH.
      + intros r Hr. apply Hbefore. now right.
      + intros r Hr. apply Hname. now right. }
  split; apply Hfind; intros r Hr; destruct (Hbefore r Hr) as (? & ? & ?);
    auto.
Qed.

Lemma pressure_cells_share_the_first_pressure_reading_witness :
  getPressureValue
    [reading "Flow" (VNum 2); reading "Steam Pressure" (VNum 9.5);
     reading "Inlet Temp" (VNum 254.25)] "inlet"
  = "9.5".
Proof.
  refine
    (proj1
       (pressure_cells_share_the_first_pressure_reading
          [reading "Flow" (VNum 2)] [reading "Inlet Temp" (VNum 254.25)]
          (reading "Steam Pressure" (VNum 9.5)) "inlet" "outlet" _ _)).
  - reflexivity.
  - intros r [<- | []]. repeat split.
Defined.

(** ** Sets of device identifiers *)

Lemma has_add (s : JsSet.t) (x y : string) :
  JsSet.has (JsSet.add x s) y = String.eqb y x || JsSet.has s y.
Proof.
  unfold JsSet.add.
  destruct (JsSet.has s x) eqn:Hx.
  - destruct (String.eqb_spec y x) as [-> | _]; [now rewrite Hx | reflexivity].
  - unfold JsSet.has. rewrite existsb_app. cbn [existsb].
    rewrite orb_false_r. apply orb_comm.
Qed.

Lemma has_delete (s : JsSet.t) (x y : string) :
  JsSet.has (JsSet.delete x s) y = negb (String.eqb y x) && JsSet.has s y.
Proof.
  unfold JsSet.has, JsSet.delete.
  induction s as [ | a s IH]; [now rewrite andb_false_r | ].
  cbn [filter existsb].
  destruct (String.eqb_spec a x) as [-> | Hax]; cbn [negb existsb].
  - rewrite IH. destruct (String.eqb_spec y x); reflexivity.
  - rewrite IH.
    destruct (String.eqb_spec y a) as [-> | _]; [ | reflexivity].
    destruct (String.eqb_spec a x); [contradiction | reflexivity].
Qed.

Lemma add_keeps_elements_distinct (s : JsSet.t) (x : string) :
  NoDup s -> NoDup (JsSet.add x s).
Proof.
  intros Hs. unfold JsSet.add.
  destruct (JsSet.has s x) eqn:Hx; [exact Hs | ].
  apply NoDup_rev in Hs. rewrite <- (rev_involutive (s ++ [x])).
  apply NoDup_rev. rewrite rev_app_distr. cbn [rev app].
  constructor; [ | exact Hs].
  intros Hin. apply in_rev in Hin.
  assert (JsSet.has s x = true); [ | congruence].
  apply existsb_exists. exists x. split; [exact Hin | apply String.eqb_refl].
Qed.

(** Ticking or clearing the box of a device makes exactly that device
    selected or not, changes nothing for the others, and keeps each
    identifier in the set once. *)
Theorem selection_follows_the_checkbox
  (selectedDevices : JsSet.t) (deviceId : string) (checked : bool) :
  let after := handleDeviceSelection selectedDevices deviceId checked in
  JsSet.has after deviceId = checked /\
  (forall other, other <> deviceId ->
     JsSet.has after other = JsSet.has selectedDevices other) /\
  (NoDup selectedDevices -> NoDup after).
Proof.
  cbv zeta. unfold handleDeviceSelection.
  destruct checked; split; try split.
  - rewrite has_add, String.eqb_refl. reflexivity.
  - intros other Hother. rewrite has_add.
    now destruct (String.eqb_spec other deviceId).
  - apply add_keeps_elements_distinct.
  - rewrite has_delete, String.eqb_refl. reflexivity.
  - intros other Hother. rewrite has_delete.
    now destruct (String.eqb_spec other deviceId).
  - intros Hs. now apply NoDup_filter.
Qed.

(** Expanding and collapsing: toggling a row changes the state of that row
    only, and toggling it twice restores every row's state. *)
Theorem toggling_a_row_twice_restores_it
  (expandedRows : JsSet.t) (deviceId : string) :
  let once := toggleRowExpansion expandedRows deviceId in
  let twice := toggleRowExpansion once deviceId in
  JsSet.has once deviceId = negb (JsSet.has expandedRows deviceId) /\
  (forall other, other <> deviceId ->
     JsSet.has once other = JsSet.has expandedRows other) /\
  (forall id, JsSet.has twice id = JsSet.has expandedRows id).
Proof.
  cbv zeta.
  assert (Honce : forall s id,
             JsSet.has (toggleRowExpansion s deviceId) id
             = if String.eqb id deviceId then negb (JsSet.has s deviceId)
               else JsSet.has s id).
  { intros s id. unfold toggleRowExpansion.
    destruct (JsSet.has s deviceId) eqn:Hs.
    - rewrite has_delete.
      destruct (String.eqb_spec id deviceId); reflexivity.
    - rewrite has_add.
      destruct (String.eqb_spec id deviceId); reflexivity. }
  split; [ | split].
  - now rewrite Honce, String.eqb_refl.
  - intros other Hother. rewrite Honce.
    now destruct (String.eqb_spec other deviceId).
  - intros id. rewrite !Honce, String.eqb_refl.
    destruct (String.eqb_spec id deviceId) as [-> | _];
      [apply negb_involutive | reflexivity].
Qed.

Lemma has_iff_In (s : JsSet.t) (x : string) :
  JsSet.has s x = true <-> In x s.
Proof.
  unfold JsSet.has. rewrite existsb_exists. split.
  - intros (y & Hy & Heq). apply String.eqb_eq in Heq. now subst.
  - intros Hx. exists x. split; [exact Hx | apply String.eqb_refl].
Qed.

Lemma ofList_from (l : list string) (s : JsSet.t) :
  NoDup (s ++ l) -> fold_left (fun acc x => JsSet.add x acc) l s = (s ++ l)%list.
Proof.
  revert s. induction l as [ | x l IH]; intros s Hdistinct; cbn [fold_left].
  - now rewrite app_nil_r.
  - assert (Hfresh : JsSet.has s x = false).
    { destruct (JsSet.has s x) eqn:Hx; [ | reflexivity].
      apply has_iff_In in Hx. apply NoDup_remove_2 in Hdistinct.
      exfalso. apply Hdistinct. apply in_or_app. now left. }
    unfold JsSet.add at 2. rewrite Hfresh.
    rewrite IH; rewrite <- app_assoc; [reflexivity | exact Hdistinct].
Qed.

Lemma has_ofList_from (l : list string) (s : JsSet.t) (x : string) :
  JsSet.has (fold_left (fun acc y => JsSet.add y acc) l s) x
  = JsSet.has s x || existsb (String.eqb x) l.
Proof.
  revert s. induction l as [ | y l IH]; intros s; cbn [fold_left existsb].
  - now rewrite orb_false_r.
  - rewrite IH, has_add.
    destruct (String.eqb x y), (JsSet.has s x); reflexivity.
Qed.

(** "Select All" selects every device, so the dashboard shows the whole
    list; clearing it selects none.  With distinct identifiers and at least
    one device the box then shows as ticked; cleared it never does. *)
Theorem select_all_shows_every_device (devices : list DeviceDetail) :
  displayDevices devices (handleSelectAll devices true) = devices /\
  displayDevices devices (handleSelectAll devices false) = [] /\
  selectAllChecked devices (handleSelectAll devices false) = false /\
  (NoDup (map devID devices) -> devices <> [] ->
   handleSelectAll devices true = map devID devices /\
   selectAllChecked devices (handleSelectAll devices true) = true).
Proof.
  split; [ | split; [ | split]].
  - unfold displayDevices, handleSelectAll, JsSet.ofList.
    rewrite <- (filter_true devices) at 2.
    apply filter_ext_in. intros d Hd. rewrite has_ofList_from.
    cbn [JsSet.has existsb orb]. apply existsb_exists.
    exists (devID d). split; [now apply in_map | apply String.eqb_refl].
  - unfold displayDevices, handleSelectAll.
    induction devices as [ | d devices IH]; [reflexivity | exact IH].
  - unfold selectAllChecked, handleSelectAll.
    destruct devices; reflexivity.
  - intros Hids Hsome.
    assert (Hset : handleSelectAll devices true = map devID devices).
    { unfold handleSelectAll, JsSet.ofList. now rewrite ofList_from. }
    split; [exact Hset | ].
    unfold selectAllChecked, JsSet.size. rewrite Hset, length_map.
    rewrite Nat.eqb_refl. destruct devices; [contradiction | reflexivity].
Qed.

Lemma select_all_shows_every_device_witness :
  selectAllChecked sampleDevices (handleSelectAll sampleDevices true) = true.
Proof.
  refine (proj2 (proj2 (proj2 (proj2
            (select_all_shows_every_device sampleDevices))) _ _)).
  - repeat constructor; cbn; intuition discriminate.
  - discriminate.
Defined.

(** What the "Select All" box says.  When the identifiers of the devices
    are distinct and every selected identifier is one of them, the box is
    ticked exactly when there is a device and all devices are selected. *)
Theorem select_all_box_means_all_selected
  (devices : list DeviceDetail) (selectedDevices : JsSet.t) :
  NoDup (map devID devices) ->
  NoDup selectedDevices ->
  (forall id, JsSet.has selectedDevices id = true ->
              In id (map devID devices)) ->
  selectAllChecked devices selectedDevices = true <->
  devices <> [] /\
  forall d, In d devices -> JsSet.has selectedDevices (devID d) = true.
Proof.
  intros Hids Hselected Hknown.
  assert (Hincl : incl selectedDevices (map devID devices)).
  { intros id Hid. apply Hknown. now apply has_iff_In. }
  unfold selectAllChecked, JsSet.size.
  rewrite andb_true_iff, Nat.eqb_eq, Nat.ltb_lt. split.
  - intros [Hsize Hsome]. split.
    + intros ->. cbn in Hsome. lia.
    + intros d Hd. apply has_iff_In.
      apply (@NoDup_length_incl string selectedDevices (map devID devices));
        [exact Hselected | rewrite length_map; lia | exact Hincl | ].
      now apply in_map.
  - intros [Hsome Hall]. split.
    + apply Nat.le_antisymm.
      * rewrite <- (length_map devID devices).
        now apply NoDup_incl_length.
      * rewrite <- (length_map devID devices).
        apply NoDup_incl_length; [exact Hids | ].
        intros id Hid. apply in_map_iff in Hid.
        destruct Hid as (d & <- & Hd). apply has_iff_In. now apply Hall.
    + destruct devices; [contradiction | cbn; lia].
Qed.

Lemma select_all_box_means_all_selected_witness :
  selectAllChecked sampleDevices ["f"; "e"; "d"; "c"; "b"; "a"] = true.
Proof.
  apply select_all_box_means_all_selected.
  - repeat constructor; cbn; intuition discriminate.
  - repeat constructor; cbn; intuition discriminate.
  - intros id Hid. apply has_iff_In in Hid. cbn in *. tauto.
  - split; [discriminate | ].
    intros d Hd. cbn in Hd.
    repeat (destruct Hd as [<- | Hd]; [reflexivity | ]). contradiction.
Defined.

(** ** Assignment to an object *)

Section Assign.

Context {A : Type}.
Implicit Types (entries : list (string * A)) (key : string) (v : A).

Lemma valueAt_without_key entries key :
  hasKey entries key = false -> valueAt entries key = None.
Proof.
  unfold hasKey, valueAt.
  induction entries as [ | e entries IH]; [reflexivity | ].
  cbn [existsb find]. destruct (String.eqb (fst e) key); [discriminate | ].
  exact IH.
Qed.

Lemma valueAt_insertKey entries key v other :
  hasKey entries key = false ->
  valueAt (insertKey key v entries) other
  = if String.eqb key other then Some v else valueAt entries other.
Proof.
  unfold hasKey, valueAt.
  induction entries as [ | [k old] entries IH]; intros Hfresh.
  - cbn. now destruct (String.eqb key other).
  - cbn [existsb fst] in Hfresh. apply orb_false_iff in Hfresh.
    destruct Hfresh as [Hk Hfresh]. specialize (IH Hfresh).
    assert (Hshift :
              option_map snd
                (find (fun entry => String.eqb (fst entry) other)
                   ((k, old) :: insertKey key v entries))
              = if String.eqb key other then Some v
                else option_map snd
                       (find (fun entry => String.eqb (fst entry) other)
                          ((k, old) :: entries))).
    { cbn [find fst].
      destruct (String.eqb_spec k other) as [-> | _]; [ | exact IH].
      apply String.eqb_neq in Hk. cbn [option_map snd].
      destruct (String.eqb_spec key other); [congruence | reflexivity]. }
    assert (Hfront :
              option_map snd
                (find (fun entry => String.eqb (fst entry) other)
                   ((key, v) :: (k, old) :: entries))
              = if String.eqb key other then Some v
                else option_map snd
                       (find (fun entry => String.eqb (fst entry) other)
                          ((k, old) :: entries))).
    { cbn [find fst]. now destruct (String.eqb key other). }
    cbn [insertKey].
    destruct (arrayIndex key) as [n | ], (arrayIndex k) as [m | ];
      try exact Hshift.
    + destruct (n <? m); [exact Hfront | exact Hshift].
    + exact Hfront.
Qed.

Lemma valueAt_overwritten entries key v other :
  valueAt
    (map (fun entry => if String.eqb (fst entry) key then (key, v) else entry)
       entries) other
  = if String.eqb key other
    then (if hasKey entries key then Some v else None)
    else valueAt entries other.
Proof.
  unfold hasKey, valueAt.
  induction entries as [ | [k old] entries IH].
  - cbn. now destruct (String.eqb key other).
  - cbn [existsb map find fst].
    destruct (String.eqb_spec k key) as [-> | Hk]; cbn [find fst orb].
    + destruct (String.eqb key other); [reflexivity | exact IH].
    + destruct (String.eqb_spec k other) as [-> | _]; [ | exact IH].
      cbn [option_map snd].
      destruct (String.eqb_spec key other); [congruence | reflexivity].
Qed.

Lemma valueAt_assign entries key v other :
  valueAt (assign key v entries) other
  = if String.eqb key other then Some v else valueAt entries other.
Proof.
  unfold assign. fold (hasKey entries key).
  destruct (hasKey entries key) eqn:Hkey;
    [ | now apply valueAt_insertKey].
  now rewrite valueAt_overwritten, Hkey.
Qed.



Lemma same_keys_after_overwriting entries key v :
  hasKey entries key = true ->
  map fst (assign key v entries) = map fst entries.
Proof.
  intros Hkey. unfold assign. fold (hasKey entries key). rewrite Hkey.
  rewrite map_map. apply map_ext.
  intros [k old]. cbn [fst].
  destruct (String.eqb_spec k key) as [-> | _]; reflexivity.
Qed.




End Assign.

(** ** The device types of the dashboard *)






(** ** The rows of the table *)






Lemma lookupRow_after_assign (deviceRows : DeviceRows) (key other : string)
  (row : DeviceRowData) :
  lookupRow (assign key row deviceRows) other
  = if String.eqb key other then Some row else lookupRow deviceRows other.
Proof.
  exact (valueAt_assign deviceRows key row other).
Qed.

Lemma hasKey_of_row (deviceRows : DeviceRows) (key : string)
  (row : DeviceRowData) :
  lookupRow deviceRows key = Some row -> hasKey deviceRows key = true.
Proof.
  intros Hrow. destruct (hasKey deviceRows key) eqn:Hkey; [reflexivity | ].
  pose proof (valueAt_without_key deviceRows key Hkey) as Hnone.
  unfold valueAt in Hnone. unfold lookupRow in Hrow. congruence.
Qed.

Lemma updateRow_spec (deviceId : string)
  (change : DeviceRowData -> DeviceRowData) (prev next : DeviceRows) :
  updateRow deviceId change prev = Some next ->
  exists row,
    lookupRow prev deviceId = Some row /\
    lookupRow next deviceId = Some (change row) /\
    map fst next = map fst prev /\
    forall other, other <> deviceId ->
                  lookupRow next other = lookupRow prev other.
Proof.
  unfold updateRow.
  destruct (lookupRow prev deviceId) as [row | ] eqn:Hrow; [ | discriminate].
  intros [= <-]. exists row. split; [reflexivity | split; [ | split]].
  - now rewrite lookupRow_after_assign, String.eqb_refl.
  - apply same_keys_after_overwriting. now apply (hasKey_of_row _ _ row).
  - intros other Hother. rewrite lookupRow_after_assign.
    destruct (String.eqb_spec deviceId other); [congruence | reflexivity].
Qed.

Lemma row_after_fetch (deviceId : string) (outcome : FetchOutcome) (now : Z)
  (prev next : DeviceRows) :
  fetchDeviceData deviceId outcome now prev = Some next ->
  exists row,
    lookupRow prev deviceId = Some row /\
    lookupRow next deviceId = Some (rowAfterFetch outcome now row).
Proof.
  unfold fetchDeviceData.
  destruct (updateRow deviceId fetchStarted prev) as [started | ] eqn:Hstart;
    [ | discriminate].
  destruct (updateRow_spec _ _ _ _ Hstart) as (row & Hrow & Hmid & _).
  intros Hend. exists row. split; [exact Hrow | ].
  destruct outcome as [data | message];
    destruct (updateRow_spec _ _ _ _ Hend) as (row' & Hrow' & Hfinal & _);
    rewrite Hmid in Hrow'; injection Hrow' as <-; exact Hfinal.
Qed.

(** A fetch writes the slot of its own device only: the keys of
    [deviceRows] and their order stay as they were, the rows of all other
    devices are untouched, and the row of the device is its old row with
    the fields the fetch sets. *)
Theorem fetch_writes_its_own_slot_only
  (deviceId : string) (outcome : FetchOutcome) (now : Z)
  (prev next : DeviceRows) :
  fetchDeviceData deviceId outcome now prev = Some next ->
  map fst next = map fst prev /\
  (forall other, other <> deviceId ->
                 lookupRow next other = lookupRow prev other) /\
  exists row,
    lookupRow prev deviceId = Some row /\
    lookupRow next deviceId = Some (rowAfterFetch outcome now row).
Proof.
  intros Hfetch.
  split; [ | split; [ | exact (row_after_fetch _ _ _ _ _ Hfetch)]];
    unfold fetchDeviceData in Hfetch;
    destruct (updateRow deviceId fetchStarted prev) as [started | ]
      eqn:Hstart; try discriminate;
    destruct (updateRow_spec _ _ _ _ Hstart) as (row & _ & _ & Hk1 & Ho1);
    destruct outcome as [data | message];
    destruct (updateRow_spec _ _ _ _ Hfetch) as (row' & _ & _ & Hk2 & Ho2);
    try congruence;
    intros other Hother; now rewrite Ho2, Ho1.
Qed.

Lemma fetch_writes_its_own_slot_only_witness :
  lookupRow
    (match
       fetchDeviceData "d" (Resolved (Some [reading "status" (VNum 3)])) 7
         sampleRows
     with
     | Some next => next
     | None => []
     end) "b"
  = lookupRow sampleRows "b".
Proof.
  destruct
    (fetchDeviceData "d" (Resolved (Some [reading "status" (VNum 3)])) 7
       sampleRows) as [next | ] eqn:Hnext; [ | discriminate].
  apply (proj1 (proj2 (fetch_writes_its_own_slot_only _ _ _ _ _ Hnext))).
  discriminate.
Defined.

(** A failed fetch empties the snapshot: the device is counted and listed
    offline and its badge falls back to the default Normal.  The time of the
    last success is kept, and the device stops counting as online, unless
    the error carries an empty message. *)
Theorem failed_fetch_takes_the_device_offline
  (d : DeviceDetail) (message : option string) (now : Z)
  (prev next : DeviceRows) :
  fetchDeviceData (devID d) (Rejected message) now prev = Some next ->
  deviceTier next d = TierOffline /\
  trapStatusOf next d = defaultStatus /\
  exists row row',
    lookupRow prev (devID d) = Some row /\
    lookupRow next (devID d) = Some row' /\
    sensorData row' = [] /\
    isLoading row' = false /\
    lastUpdated row' = lastUpdated row /\
    (isOnline row' = true <-> message = Some "" /\ lastUpdated row <> None).
Proof.
  intros Hfetch.
  destruct (row_after_fetch _ _ _ _ _ Hfetch) as (row & Hrow & Hnext).
  cbn [rowAfterFetch] in Hnext.
  unfold deviceTier, trapStatusOf, bucket. rewrite Hnext.
  cbn [fetchRejected fetchStarted sensorData List.length Nat.ltb Nat.leb].
  split; [reflexivity | split; [reflexivity | ]].
  exists row. eexists. split; [exact Hrow | split; [reflexivity | ]].
  cbn [fetchRejected fetchStarted sensorData isLoading lastUpdated].
  split; [reflexivity | split; [reflexivity | split; [reflexivity | ]]].
  unfold isOnline, fetchRejected, fetchStarted. cbn [error lastUpdated].
  destruct message as [[ | c m] | ]; destruct (lastUpdated row) as [z | ];
    cbn; split; intros H;
    try discriminate; try (destruct H; congruence);
    try (split; [reflexivity | discriminate]); reflexivity.
Qed.

Lemma failed_fetch_takes_the_device_offline_witness :
  deviceTier
    (match fetchDeviceData "b" (Rejected (Some "timeout")) 7 sampleRows with
     | Some next => next
     | None => []
     end)
    {| devID := "b"; devTypeID := Some "STEAM_TRAP3" |}
  = TierOffline.
Proof.
  destruct (fetchDeviceData "b" (Rejected (Some "timeout")) 7 sampleRows)
    as [next | ] eqn:Hnext; [ | discriminate].
  exact
    (proj1
       (failed_fetch_takes_the_device_offline
          {| devID := "b"; devTypeID := Some "STEAM_TRAP3" |}
          (Some "timeout") 7 sampleRows next Hnext)).
Defined.

(** A successful fetch overwrites the snapshot wholesale: the row holds the
    new readings and nothing of the old ones, the badge is the status of the
    new readings, the error of an earlier failure is gone and the device
    counts as online.  When the fetch brings no readings the device is
    online and offline at once. *)
Theorem successful_fetch_replaces_the_snapshot
  (d : DeviceDetail) (data : option (list SensorDataPoint)) (now : Z)
  (prev next : DeviceRows) :
  fetchDeviceData (devID d) (Resolved data) now prev = Some next ->
  let readings := match data with Some rs => rs | None => [] end in
  trapStatusOf next d = getTrapStatus readings /\
  deviceTier next d
  = match readings with
    | [] => TierOffline
    | _ :: _ => tier (getTrapStatus readings)
    end /\
  exists row',
    lookupRow next (devID d) = Some row' /\
    sensorData row' = readings /\
    error row' = None /\
    lastUpdated row' = Some now /\
    isLoading row' = false /\
    isOnline row' = true.
Proof.
  intros Hfetch readings.
  destruct (row_after_fetch _ _ _ _ _ Hfetch) as (row & Hrow & Hnext).
  cbn [rowAfterFetch] in Hnext.
  unfold deviceTier, trapStatusOf, bucket. rewrite Hnext.
  cbn [fetchResolved fetchStarted sensorData]. fold readings.
  split; [reflexivity | split].
  - now destruct readings.
  - eexists. split; [reflexivity | ]. repeat split.
Qed.

Lemma successful_fetch_replaces_the_snapshot_witness :
  trapStatusOf
    (match
       fetchDeviceData "a" (Resolved (Some [reading "status" (VNum 6)])) 7
         sampleRows
     with
     | Some next => next
     | None => []
     end)
    {| devID := "a"; devTypeID := Some "STEAM_TRAP3" |}
  = getTrapStatus [reading "status" (VNum 6)].
Proof.
  destruct
    (fetchDeviceData "a" (Resolved (Some [reading "status" (VNum 6)])) 7
       sampleRows) as [next | ] eqn:Hnext; [ | discriminate].
  exact
    (proj1
       (successful_fetch_replaces_the_snapshot
          {| devID := "a"; devTypeID := Some "STEAM_TRAP3" |}
          (Some [reading "status" (VNum 6)]) 7 sampleRows next Hnext)).
Defined.

(** ** More on identification and [loadDevices] *)

Lemma startsWith_shorter (s p q : string) :
  startsWith s (p ++ q) = true -> startsWith s p = true.
Proof.
  revert s. induction p as [ | c p IH]; intros s; [now destruct s | ].
  cbn [append]. destruct s as [ | c' s]; cbn [startsWith]; [discriminate | ].
  rewrite !andb_true_iff. intros [Hc Hrest]. split; [exact Hc | ].
  now apply IH.
Qed.

Lemma includes_shorter (s p q : string) :
  includes s (p ++ q) = true -> includes s p = true.
Proof.
  induction s as [ | c s IH]; cbn [includes]; rewrite !orb_true_iff.
  - intros [H | H]; [left; now apply (startsWith_shorter _ p q) | discriminate].
  - intros [H | H]; [left; now apply (startsWith_shorter _ p q) | right].
    now apply IH.
Qed.

Lemma steamtrap_includes_steam (s : option string) :
  optIncludes s "steamtrap" = true -> optIncludes s "steam" = true.
Proof.
  destruct s as [s | ]; [ | discriminate].
  apply (includes_shorter (toLowerCase s) "steam" "trap").
Qed.

Lemma coarse_devices_are_steam_traps (device : DeviceDetail)
  (metadata : option Metadata.t) :
  coarseFilter device = true -> isSteamTrap device metadata = true.
Proof.
  unfold coarseFilter, isSteamTrap. rewrite !orb_true_iff.
  intros [[Hcode | Hid] | Hid].
  - rewrite (optIs_STEAM_TRAP3_includes_steam _ Hcode). auto.
  - auto.
  - auto.
Qed.

(** The identification tests say no more than "contains steam": the
    comparison with "STEAM_TRAP3" and the search for "steamtrap" never decide
    anything, in the coarse filter and on the device card alike. *)
Theorem identification_is_contains_steam
  (device : DeviceDetail) (metadata : option Metadata.t) :
  coarseFilter device = optIncludes (devTypeID device) "steam" /\
  isSteamTrap device metadata
  = optIncludes (devTypeID device) "steam"
    || optIncludes
         match metadata with
         | Some m => Metadata.devTypeName m
         | None => None
         end "steam".
Proof.
  unfold coarseFilter, isSteamTrap.
  pose proof (optIs_STEAM_TRAP3_includes_steam (devTypeID device)) as Hcode.
  pose proof (steamtrap_includes_steam (devTypeID device)) as Hid.
  pose proof
    (steamtrap_includes_steam
       match metadata with
       | Some m => Metadata.devTypeName m
       | None => None
       end) as Hname.
  destruct (optIs (devTypeID device) "STEAM_TRAP3");
    destruct (optIncludes (devTypeID device) "steamtrap");
    destruct (optIncludes (devTypeID device) "steam");
    destruct (optIncludes _ "steamtrap");
    destruct (optIncludes _ "steam");
    cbn; split; try reflexivity;
    try (discriminate (Hcode eq_refl));
    try (discriminate (Hid eq_refl));
    try (discriminate (Hname eq_refl)).
Qed.

(** The working set, for distinct identifiers (what C4's theorem says of
    it, kept here for the proofs below). *)
Lemma working_set_is_filtered
  (getDeviceMetaData : string -> option (option Metadata.t))
  (deviceDetails : list DeviceDetail) :
  NoDup (map devID deviceDetails) ->
  finalSteamTrapDevices (loadDevices getDeviceMetaData deviceDetails)
  = filter
      (fun d => coarseFilter d && metadataAccepted getDeviceMetaData d)
      deviceDetails.
Proof.
  intros Hids. unfold loadDevices. rewrite collect_all.
  - cbn [finalSteamTrapDevices app]. apply coarse_then_metadata_filter.
  - intros d Hd. apply find_by_unique_devID; [ | exact Hd].
    now apply coarse_devices_have_distinct_ids.
Qed.

(** Loading is idempotent: loading again from the working set, with the
    same metadata, gives the working set back. *)
Theorem loading_the_working_set_again_changes_nothing
  (getDeviceMetaData : string -> option (option Metadata.t))
  (deviceDetails : list DeviceDetail) :
  NoDup (map devID deviceDetails) ->
  let workingSet :=
    finalSteamTrapDevices (loadDevices getDeviceMetaData deviceDetails) in
  finalSteamTrapDevices (loadDevices getDeviceMetaData workingSet)
  = workingSet.
Proof.
  intros Hids workingSet. subst workingSet.
  rewrite (working_set_is_filtered _ deviceDetails Hids).
  rewrite working_set_is_filtered.
  - induction deviceDetails as [ | d rest IH]; [reflexivity | ].
    cbn [map] in Hids. inversion Hids as [ | ? ? _ Hrest]; subst.
    cbn [filter].
    destruct (coarseFilter d && metadataAccepted getDeviceMetaData d) eqn:Hd;
      [ | now apply IH].
    cbn [filter]. rewrite Hd. f_equal. now apply IH.
  - clear - Hids.
    induction deviceDetails as [ | d rest IH]; cbn [map filter] in *;
      [constructor | ].
    inversion Hids as [ | ? ? Hfresh Hrest]; subst.
    destruct (coarseFilter d && metadataAccepted getDeviceMetaData d);
      [ | now apply IH].
    cbn [map]. constructor; [ | now apply IH].
    rewrite in_map_iff. intros (d' & Hid & Hd').
    apply filter_In in Hd'. apply Hfresh. rewrite <- Hid.
    apply in_map. tauto.
Qed.

Lemma loading_the_working_set_again_changes_nothing_witness :
  let getDeviceMetaData (id : string) :=
    Some (Some {| Metadata.devID := id;
                  Metadata.devName := "Trap";
                  Metadata.devTypeID := Some "STEAM_TRAP3";
                  Metadata.devTypeName := Some "Steam Trap" |}) in
  finalSteamTrapDevices
    (loadDevices getDeviceMetaData
       (finalSteamTrapDevices (loadDevices getDeviceMetaData sampleDevices)))
  = finalSteamTrapDevices (loadDevices getDeviceMetaData sampleDevices).
Proof.
  intros getDeviceMetaData.
  apply (loading_the_working_set_again_changes_nothing getDeviceMetaData).
  repeat constructor; cbn; intuition discriminate.
Defined.

Lemma collected_devices_passed_the_coarse_filter
  (getDeviceMetaData : string -> option (option Metadata.t))
  (steamTrapDevices : list DeviceDetail)
  (results : list (option (string * option Metadata.t))) (acc : Loaded) :
  Forall (fun d => In d steamTrapDevices) (finalSteamTrapDevices acc) ->
  Forall (fun d => In d steamTrapDevices)
    (finalSteamTrapDevices
       (fold_left (collect steamTrapDevices) results acc)).
Proof.
  revert acc. induction results as [ | result results IH]; intros acc Hacc;
    [exact Hacc | ].
  cbn [fold_left]. apply IH. unfold collect.
  destruct result as [[deviceId [metadata | ]] | ]; try exact Hacc.
  destruct (fineFilter metadata); [ | exact Hacc].
  cbn [finalSteamTrapDevices].
  destruct (find _ steamTrapDevices) as [device | ] eqn:Hfind;
    [ | exact Hacc].
  apply Forall_app. split; [exact Hacc | ].
  constructor; [ | constructor]. apply (find_some _ _ Hfind).
Qed.

(** Every device of the working set comes from the raw list, passed the
    coarse filter, and is shown as a steam trap by its card, whatever its
    metadata: also when identifiers repeat. *)
Theorem working_set_devices_are_shown_as_steam_traps
  (getDeviceMetaData : string -> option (option Metadata.t))
  (deviceDetails : list DeviceDetail) (d : DeviceDetail)
  (metadata : option Metadata.t) :
  In d (finalSteamTrapDevices (loadDevices getDeviceMetaData deviceDetails))
  -> In d deviceDetails /\
     coarseFilter d = true /\
     isSteamTrap d metadata = true.
Proof.
  intros Hd.
  assert (Hcoarse : In d (filter coarseFilter deviceDetails)).
  { pose proof
      (collected_devices_passed_the_coarse_filter getDeviceMetaData
         (filter coarseFilter deviceDetails)
         (map (metadataResult getDeviceMetaData)
            (filter coarseFilter deviceDetails))
         {| finalSteamTrapDevices := []; metadataMap := [] |}
         (Forall_nil _)) as Hall.
    rewrite Forall_forall in Hall. now apply Hall. }
  apply filter_In in Hcoarse. destruct Hcoarse as [Hraw Hcoarse].
  split; [exact Hraw | split; [exact Hcoarse | ]].
  now apply coarse_devices_are_steam_traps.
Qed.

Lemma working_set_devices_are_shown_as_steam_traps_witness :
  isSteamTrap {| devID := "a"; devTypeID := Some "STEAM_TRAP3" |} None = true.
Proof.
  refine
    (proj2 (proj2
       (working_set_devices_are_shown_as_steam_traps
          (fun id =>
             Some (Some {| Metadata.devID := id;
                           Metadata.devName := "Trap";
                           Metadata.devTypeID := Some "STEAM_TRAP3";
                           Metadata.devTypeName := Some "Steam Trap" |}))
          sampleDevices {| devID := "a"; devTypeID := Some "STEAM_TRAP3" |}
          None _))).
  vm_compute. tauto.
Defined.




